(** * eazyclass: schedule synchronisation

    A shallow embedding of [scheduler/tasks/lessons_parser.py] and of the
    bulk resolvers of [eazyclass/scheduler/managers.py].

    Conventions of the embedding.
    - Python [str] is [string], holding the UTF-8 bytes of the text; the
      text functions below read those bytes as UTF-8 and follow Python on
      every well-formed string.  The Unicode tables are those of
      Unicode 14.0 (CPython 3.11).
    - A [datetime.date] is the record [date]; comparison is chronological.
    - The storage collaborator (Django ORM) is modelled by its contract:
      a table is a finite map from primary key to row, [get] looks a row
      up, [create] inserts under a fresh primary key after the [save()]
      hook of the model has run.  Column widths ([max_length]) are not
      enforced, as on SQLite.  The foreign keys of a stored [Lesson] are
      never null.
    - The cache collaborator is a finite map.  Keys are md5 digests of the
      model name followed by the JSON of the parameters; digests are taken
      to be collision free, so the cache is one finite map per model name,
      keyed by the parameters themselves.  Expiry is not modelled: within
      the runs considered no entry times out.
    - The epoch [current_timestamp] is a [Z]; the code only tests it for
      truthiness and for equality.
    - Logging calls have no influence on any value and are left out. *)

From Stdlib Require Import ZArith Lia Ascii String.
From stdpp Require Import base option list gmap sets strings.

Local Open Scope string_scope.
Local Open Scope list_scope.
Local Open Scope Z_scope.

(** ** Dates *)

Record date := Date { year : Z; month : Z; day : Z }.

#[global] Instance date_eq_dec : EqDecision date.
Proof. solve_decision. Defined.

#[global] Instance date_countable : Countable date.
Proof.
  refine (inj_countable' (λ d, (year d, month d, day d))
            (λ t, Date t.1.1 t.1.2 t.2) _).
  by intros [].
Defined.

(** [a <= b] on dates, as Python compares [datetime.date] values. *)
Definition date_leb (a b : date) : bool :=
  if decide (year a = year b) then
    if decide (month a = month b) then bool_decide (day a ≤ day b)
    else bool_decide (month a < month b)
  else bool_decide (year a < year b).

Definition is_leap (y : Z) : bool :=
  bool_decide (y mod 4 = 0) && (negb (bool_decide (y mod 100 = 0)) || bool_decide (y mod 400 = 0)).

Definition days_in_month (y m : Z) : Z :=
  if decide (m = 2) then (if is_leap y then 29 else 28)
  else if decide (m = 4 ∨ m = 6 ∨ m = 9 ∨ m = 11) then 30 else 31.

(** A day of the calendar that [datetime.date] can hold. *)
Definition valid_date (d : date) : Prop :=
  1 ≤ year d ≤ 9999 ∧ 1 ≤ month d ≤ 12 ∧ 1 ≤ day d ≤ days_in_month (year d) (month d).

(** ** Text helpers *)

Definition byte (c : ascii) : Z := Z.of_N (N_of_ascii c).

Definition ascii_of_Z (n : Z) : ascii := ascii_of_N (Z.to_N n).

(** The UTF-8 bytes of a code point. *)
Definition utf8_encode (cp : Z) : list ascii :=
  if bool_decide (cp < 128) then [ascii_of_Z cp]
  else if bool_decide (cp < 2048) then
    [ascii_of_Z (192 + cp / 64); ascii_of_Z (128 + cp mod 64)]
  else if bool_decide (cp < 65536) then
    [ascii_of_Z (224 + cp / 4096); ascii_of_Z (128 + (cp / 64) mod 64);
     ascii_of_Z (128 + cp mod 64)]
  else
    [ascii_of_Z (240 + cp / 262144); ascii_of_Z (128 + (cp / 4096) mod 64);
     ascii_of_Z (128 + (cp / 64) mod 64); ascii_of_Z (128 + cp mod 64)].

(** The code points of UTF-8 bytes; [pending] continuation bytes are
    still to come for the code point whose leading bits are [acc].  A
    byte that cannot start a character, and a sequence cut short, give
    -1. *)
Fixpoint code_points_from (pending : nat) (acc : Z) (l : list ascii) : list Z :=
  match l with
  | [] => match pending with O => [] | S _ => [-1] end
  | c :: l' =>
      let b := byte c in
      match pending with
      | O =>
          if bool_decide (b < 128) then b :: code_points_from 0 0 l'
          else if bool_decide (192 ≤ b < 224) then code_points_from 1 (b - 192) l'
          else if bool_decide (224 ≤ b < 240) then code_points_from 2 (b - 224) l'
          else if bool_decide (240 ≤ b < 248) then code_points_from 3 (b - 240) l'
          else -1 :: code_points_from 0 0 l'
      | S O => (acc * 64 + (b - 128)) :: code_points_from 0 0 l'
      | S p => code_points_from p (acc * 64 + (b - 128)) l'
      end
  end.

Definition code_points (s : string) : list Z :=
  code_points_from 0 0 (list_ascii_of_string s).

(** The characters for which [str.isspace()] holds; [str.strip()] removes
    exactly these. *)
Definition space_code_points : list Z :=
  [9; 10; 11; 12; 13; 28; 29; 30; 31; 32; 133; 160; 5760;
   8192; 8193; 8194; 8195; 8196; 8197; 8198; 8199; 8200; 8201; 8202;
   8232; 8233; 8239; 8287; 12288].

Definition space_encodings : list (list ascii) := utf8_encode <$> space_code_points.

Definition starts_with (w l : list ascii) : bool :=
  bool_decide (take (length w) l = w).

(** Drops the characters at the head of [l] whose bytes are one of
    [encodings]; [skip] bytes of the character being dropped remain. *)
Fixpoint lstrip_from (encodings : list (list ascii)) (skip : nat) (l : list ascii)
  : list ascii :=
  match l with
  | [] => []
  | _ :: l' =>
      match skip with
      | S k => lstrip_from encodings k l'
      | O =>
          match find (λ w, starts_with w l) encodings with
          | Some w => lstrip_from encodings (length w - 1) l'
          | None => l
          end
      end
  end.

(** [s.strip()]: the leading whitespace goes, then the trailing
    whitespace, read from the end. *)
Definition strip (s : string) : string :=
  string_of_list_ascii
    (rev (lstrip_from ((λ w, rev w) <$> space_encodings) 0
            (rev (lstrip_from space_encodings 0 (list_ascii_of_string s))))).

(** [s.split(sep)[0]]: the text before the first occurrence of [sep],
    the whole of [s] when there is none. *)
Fixpoint split_head (sep s : string) : string :=
  if String.prefix sep s then ""
  else match s with
       | EmptyString => ""
       | String c s' => String c (split_head sep s')
       end.

(** The pieces of a text between its full stops. *)
Fixpoint split_dots (l : list Z) : list (list Z) :=
  match l with
  | [] => [[]]
  | c :: l' =>
      if decide (c = 46) then [] :: split_dots l'
      else match split_dots l' with
           | w :: ws => (c :: w) :: ws
           | [] => [[c]]
           end
  end.

(** The first code point of each run of ten decimal digits (category
    Nd); what [\d] matches and [int] reads. *)
Definition decimal_starts : list Z :=
  [48; 1632; 1776; 1984; 2406; 2534; 2662; 2790; 2918; 3046; 3174; 3302;
   3430; 3558; 3664; 3792; 3872; 4160; 4240; 6112; 6160; 6470; 6608; 6784;
   6800; 6992; 7088; 7232; 7248; 42528; 43216; 43264; 43472; 43504; 43600;
   44016; 65296; 66720; 68912; 69734; 69872; 69942; 70096; 70384; 70736;
   70864; 71248; 71360; 71472; 71904; 72016; 72784; 73040; 73120; 92768;
   92864; 93008; 120782; 120792; 120802; 120812; 120822; 123200; 123632;
   125264; 130032].

(** The value of a decimal digit of any script. *)
Definition decimal_value (cp : Z) : option Z :=
  (λ start, cp - start)
    <$> find (λ start, bool_decide (start ≤ cp < start + 10)) decimal_starts.

(** The value of an ASCII digit within [lo .. hi]. *)
Definition ascii_digit (lo hi cp : Z) : option Z :=
  if bool_decide (48 + lo ≤ cp ≤ 48 + hi) then Some (cp - 48) else None.

(** The directive [%d]: [3[0-1]|[1-2]\d|0[1-9]|[1-9]| [1-9]]. *)
Definition directive_d (w : list Z) : option Z :=
  match w with
  | [a] => ascii_digit 1 9 a
  | [a; b] =>
      if decide (a = 51) then y ← ascii_digit 0 1 b; Some (30 + y)
      else if decide (a = 49 ∨ a = 50) then y ← decimal_value b; Some (10 * (a - 48) + y)
      else if decide (a = 48) then ascii_digit 1 9 b
      else if decide (a = 32) then ascii_digit 1 9 b
      else None
  | _ => None
  end.

(** The directive [%m]: [1[0-2]|0[1-9]|[1-9]]. *)
Definition directive_m (w : list Z) : option Z :=
  match w with
  | [a] => ascii_digit 1 9 a
  | [a; b] =>
      if decide (a = 49) then y ← ascii_digit 0 2 b; Some (10 + y)
      else if decide (a = 48) then ascii_digit 1 9 b
      else None
  | _ => None
  end.

(** The directive [%Y]: [\d\d\d\d]. *)
Definition directive_Y (w : list Z) : option Z :=
  match w with
  | [a; b; c; d] =>
      x ← decimal_value a; y ← decimal_value b; z ← decimal_value c;
      t ← decimal_value d;
      Some (1000 * x + 100 * y + 10 * z + t)
  | _ => None
  end.

(** [datetime.strptime(s, '%d.%m.%Y').date()]; [None] is [ValueError]:
    no match, unconverted data, or no such calendar day. *)
Definition strptime_dmy (s : string) : option date :=
  match split_dots (code_points s) with
  | [wd; wm; wy] =>
      d ← directive_d wd; m ← directive_m wm; y ← directive_Y wy;
      if bool_decide (1 ≤ y) && bool_decide (d ≤ days_in_month y m)
      then Some (Date y m d) else None
  | _ => None
  end.

(** [d.strftime('%d.%m.%Y')] for a year of four digits. *)
Definition strftime_dmy (d : date) : string :=
  string_of_list_ascii
    (ascii_of_Z <$>
       [48 + day d / 10; 48 + day d mod 10; 46;
        48 + month d / 10; 48 + month d mod 10; 46;
        48 + year d / 1000; 48 + (year d / 100) mod 10;
        48 + (year d / 10) mod 10; 48 + year d mod 10]).

(** [chr(cp)]: the text of one character. *)
Definition chr (cp : Z) : string := string_of_list_ascii (utf8_encode cp).

(** A no-break space, U+00A0, as a cell of the page holds it. *)
Definition nbsp : string := chr 160.

Example strip_examples :
  strip "  1 " = "1"
  ∧ strip nbsp = ""
  ∧ strip (nbsp +:+ "A" +:+ chr 8195) = "A"
  ∧ strip (chr 133 +:+ "x" +:+ chr 12288 +:+ chr 10) = "x"
  ∧ strip ("a" +:+ nbsp +:+ "b") = "a" +:+ nbsp +:+ "b".
Proof. vm_compute. done. Qed.

Example split_head_examples :
  split_head " - " "02.09.2024 - Понедельник" = "02.09.2024"
  ∧ split_head " - " "a - b - c" = "a"
  ∧ split_head " - " "расписание" = "расписание".
Proof. vm_compute. done. Qed.

(** The last two use the Arabic-Indic digits, U+0660 to U+0669. *)
Example strptime_examples :
  strptime_dmy "01.09.2024" = Some (Date 2024 9 1)
  ∧ strptime_dmy "1.9.2024" = Some (Date 2024 9 1)
  ∧ strptime_dmy " 1.09.2024" = Some (Date 2024 9 1)
  ∧ strptime_dmy "29.02.2024" = Some (Date 2024 2 29)
  ∧ strptime_dmy "31.02.2024" = None
  ∧ strptime_dmy "01.09.24" = None
  ∧ strptime_dmy "01.09.2024 " = None
  ∧ strptime_dmy "01.09.0000" = None
  ∧ strptime_dmy ("1" +:+ chr 1634 +:+ ".09." +:+ chr 1634 +:+ chr 1632 +:+ chr 1634
                  +:+ chr 1636) = Some (Date 2024 9 12)
  ∧ strptime_dmy (chr 1632 +:+ chr 1633 +:+ ".09.2024") = None.
Proof. vm_compute. done. Qed.

(** ** The schedule document *)

(** One [tr] of class [shadow]: whether some descendant carries a
    [colspan] attribute, its whole text, and the text of each [td]. *)
Record row := Row { has_colspan : bool; row_text : string; cells : list string }.

(** What [soup.find_all('tr', class_='shadow')] yields, in document order.
    [BeautifulSoup()] built from nothing is the empty list. *)
Abbreviation soup := (list row).

(** [bool(soup)]: [bs4.element.Tag.__bool__] answers [True] for every tag,
    with or without contents, and [BeautifulSoup] inherits it. *)
Definition soup_bool (s : soup) : bool := true.

(** A parsed entry: the seven-key dictionary of a lesson, or the dictionary
    that only carries ['group_id']. *)
Inductive lesson_dict :=
| LessonDict (d : date)
    (lesson_number subject_title classroom_title teacher_name subgroup : string)
    (group_id : Z)
| GroupOnly (group_id : Z).

#[global] Instance lesson_dict_eq_dec : EqDecision lesson_dict.
Proof. solve_decision. Defined.

Definition dict_group_id (data : lesson_dict) : Z :=
  match data with
  | LessonDict _ _ _ _ _ _ g => g
  | GroupOnly g => g
  end.

Definition dict_date (data : lesson_dict) : option date :=
  match data with
  | LessonDict d _ _ _ _ _ _ => Some d
  | GroupOnly _ => None
  end.

(** [x or default] on strings. *)
Definition str_or (x default : string) : string :=
  if decide (x = "") then default else x.

Definition default_subject : string := "не указано".
Definition default_classroom : string := "(дист)".
Definition default_teacher : string := "не указано".
Definition default_subgroup : string := "0".

(** The date of a section row: [row.text.strip().split(' - ')[0]] read
    with [strptime]. *)
Definition section_date (r : row) : option date :=
  strptime_dmy (split_head " - " (strip (row_text r))).

(** The body of the [if len(cells) == 5] branch. *)
Definition make_lesson_dict (current_date : date) (group_id : Z) (r : row)
  : option lesson_dict :=
  match cells r with
  | [c0; c1; c2; c3; c4] =>
      Some (LessonDict current_date
              (strip c0)
              (str_or (strip c1) default_subject)
              (str_or (strip c2) default_classroom)
              (str_or (strip c3) default_teacher)
              (str_or (strip c4) default_subgroup)
              group_id)
  | _ => None
  end.

(** One iteration of the loop of [parse_group_schedule_soup] over the
    pair [(current_date, lessons_data)]. *)
Definition parse_row (group_id : Z) (acc : option date * list lesson_dict) (r : row)
  : option date * list lesson_dict :=
  let '(current_date, lessons_data) := acc in
  if has_colspan r then (section_date r, lessons_data)
  else match current_date with
       | Some d =>
           match make_lesson_dict d group_id r with
           | Some data => (current_date, lessons_data ++ [data])
           | None => acc
           end
       | None => acc
       end.

Definition parse_group_schedule_soup (group_id : Z) (s : soup) : list lesson_dict :=
  (foldl (parse_row group_id) (None, []) s).2.

(** ** Exceptions *)

Inductive exn := RequestException | AttributeError | IntegrityError.

(** A call either returns a value or raises. *)
Inductive outcome (A : Type) :=
| Returned (a : A)
| Raised (e : exn).
Arguments Returned {A} a.
Arguments Raised {A} e.

#[global] Instance exn_eq_dec : EqDecision exn.
Proof. solve_decision. Defined.
#[global] Instance outcome_eq_dec {A} `{EqDecision A} : EqDecision (outcome A).
Proof. solve_decision. Defined.

(** ** Storage: tables, rows and model instances *)

(** A table maps primary keys to rows. *)
Abbreviation table M := (gmap Z M).

(** A model instance in memory: the primary key ([obj.id]) and the row. *)
Record instance (M : Type) := Instance { pk : Z; fields : M }.
Arguments Instance {M} pk fields.
Arguments pk {M} _.
Arguments fields {M} _.

#[global] Instance instance_eq_dec {M} `{EqDecision M} : EqDecision (instance M).
Proof. solve_decision. Defined.

Record Group := { link : string; group_is_active : bool }.
Record Teacher := { full_name : string }.
Record Classroom := { classroom_title : string }.
Record Subject := { subject_title : string }.
Record LessonTime := { lt_date : date; lesson_number : string }.

(** A [Lesson] row; the foreign keys hold the primary keys they point to. *)
Record Lesson := {
  group_id : Z;
  lesson_time_id : Z;
  subject_id : Z;
  teacher_id : Z;
  classroom_id : Z;
  subgroup : string;
  is_active : bool
}.

#[global] Instance Group_eq_dec : EqDecision Group.
Proof. solve_decision. Defined.
#[global] Instance Teacher_eq_dec : EqDecision Teacher.
Proof. solve_decision. Defined.
#[global] Instance Classroom_eq_dec : EqDecision Classroom.
Proof. solve_decision. Defined.
#[global] Instance Subject_eq_dec : EqDecision Subject.
Proof. solve_decision. Defined.
#[global] Instance LessonTime_eq_dec : EqDecision LessonTime.
Proof. solve_decision. Defined.
#[global] Instance Lesson_eq_dec : EqDecision Lesson.
Proof. solve_decision. Defined.

#[global] Instance Group_countable : Countable Group.
Proof.
  refine (inj_countable' (λ g, (link g, group_is_active g))
            (λ p, Build_Group p.1 p.2) _).
  by intros [].
Defined.
#[global] Instance Teacher_countable : Countable Teacher.
Proof. refine (inj_countable' full_name Build_Teacher _). by intros []. Defined.
#[global] Instance Classroom_countable : Countable Classroom.
Proof. refine (inj_countable' classroom_title Build_Classroom _). by intros []. Defined.
#[global] Instance Subject_countable : Countable Subject.
Proof. refine (inj_countable' subject_title Build_Subject _). by intros []. Defined.
#[global] Instance LessonTime_countable : Countable LessonTime.
Proof.
  refine (inj_countable' (λ t, (lt_date t, lesson_number t))
            (λ p, Build_LessonTime p.1 p.2) _).
  by intros [].
Defined.

(** The next value of the primary-key sequence: above every key in use. *)
Definition fresh_pk {M} (t : table M) : Z :=
  1 + foldr Z.max 0 (map_to_list t).*1.

(** [Model.objects.get(id=obj_id)]; [None] is [DoesNotExist]. *)
Definition objects_get {M} (t : table M) (obj_id : Z) : option (instance M) :=
  Instance obj_id <$> t !! obj_id.

(** [Model.objects.create] applied to the row's fields. *)
Definition objects_create {M} (m : M) (t : table M) : instance M * table M :=
  (Instance (fresh_pk t) m, <[fresh_pk t := m]> t).

(** [Model.objects.bulk_create(objs)]. *)
Definition bulk_create {M} (objs : list M) (t : table M) : table M :=
  foldl (λ t m, (objects_create m t).2) t objs.

(** The row of a table that equals [m], with its primary key. *)
Definition objects_find {M} `{EqDecision M} (m : M) (t : table M)
  : option (instance M) :=
  (λ p, Instance p.1 p.2) <$> find (λ p, bool_decide (p.2 = m)) (map_to_list t).

(** [Model.objects.get_or_create] applied to the dictionary [defaults],
    which gives every modelled field of the row, for a model whose
    [save()] is the inherited one. *)
Definition objects_get_or_create {M} `{EqDecision M} (defaults : M) (t : table M)
  : outcome (instance M * table M) :=
  match objects_find defaults t with
  | Some obj => Returned (obj, t)
  | None => Returned (objects_create defaults t)
  end.

(** [Teacher.save()] of a new teacher calls [generate_short_name], which
    replaces a full name that is blank or, once stripped, the words for
    "not given" by these words. *)
Definition teacher_saved_name (name : string) : string :=
  if bool_decide (strip name = "не указано" ∨ strip name = "") then "не указано"
  else name.

(** [Teacher.objects.get_or_create(full_name=...)].  The column is
    unique: when the name as saved is already stored, the insertion
    raises [IntegrityError], the second [get] of [get_or_create] finds
    nothing under the name asked for, and the error is raised again. *)
Definition teacher_get_or_create (defaults : Teacher) (t : table Teacher)
  : outcome (instance Teacher * table Teacher) :=
  match objects_find defaults t with
  | Some obj => Returned (obj, t)
  | None =>
      let saved := {| full_name := teacher_saved_name (full_name defaults) |} in
      match objects_find saved t with
      | Some _ => Raised IntegrityError
      | None => Returned (objects_create saved t)
      end
  end.

(** [LessonTime.objects.get_or_create(date=..., lesson_number=...)] as
    [get_or_create_cached] calls it: [generate_cache_key] has replaced the
    date in [defaults] by its ISO text.  The lookup reads that text as a
    date; a new row is built with the text as its date, and
    [LessonTime.save()] calls [self.date.strftime], which a text does not
    have: [AttributeError], and nothing is stored. *)
Definition lesson_time_get_or_create (defaults : LessonTime) (t : table LessonTime)
  : outcome (instance LessonTime * table LessonTime) :=
  match objects_find defaults t with
  | Some obj => Returned (obj, t)
  | None => Raised AttributeError
  end.

Record DB := {
  groups : table Group;
  teachers : table Teacher;
  classrooms : table Classroom;
  subjects : table Subject;
  lesson_times : table LessonTime;
  lessons : table Lesson
}.

(** ** The cache *)

(** The entries of one model name: those keyed by the fields given to
    [get_or_create_cached] and those keyed by [{name: id}]. *)
Record model_cache (M : Type) `{Countable M} := ModelCache {
  by_params : gmap M (instance M);
  by_id : gmap Z (instance M)
}.
Arguments ModelCache {M _ _} by_params by_id.
Arguments by_params {M _ _} _.
Arguments by_id {M _ _} _.

(** The dictionary [lesson_key_data] of [make_lesson_cache_key], in the
    order group, subgroup, lesson time, subject, teacher, classroom. *)
Abbreviation lesson_key := (Z * string * Z * Z * Z * Z)%type.

Record Cache := {
  group_cache : model_cache Group;
  teacher_cache : model_cache Teacher;
  classroom_cache : model_cache Classroom;
  subject_cache : model_cache Subject;
  lesson_time_cache : model_cache LessonTime;
  lesson_marks : gmap lesson_key Z
}.

Record State := { db : DB; cache : Cache; current_timestamp : Z }.

Definition set_db (f : DB → DB) (st : State) : State :=
  {| db := f (db st); cache := cache st; current_timestamp := current_timestamp st |}.
Definition set_cache (f : Cache → Cache) (st : State) : State :=
  {| db := db st; cache := f (cache st); current_timestamp := current_timestamp st |}.
Definition set_current_timestamp (t : Z) (st : State) : State :=
  {| db := db st; cache := cache st; current_timestamp := t |}.

Definition set_lessons (t : table Lesson) (d : DB) : DB :=
  {| groups := groups d; teachers := teachers d; classrooms := classrooms d;
     subjects := subjects d; lesson_times := lesson_times d; lessons := t |}.
Definition set_lesson_marks (m : gmap lesson_key Z) (c : Cache) : Cache :=
  {| group_cache := group_cache c; teacher_cache := teacher_cache c;
     classroom_cache := classroom_cache c; subject_cache := subject_cache c;
     lesson_time_cache := lesson_time_cache c; lesson_marks := m |}.

(** What the generic helpers need of a model class: its
    [objects.get_or_create], its table and its cache entries, neither of
    which overlaps the [Lesson] table or the lesson marks. *)
Class Model (M : Type) `{Countable M} := {
  get_or_create : M → table M → outcome (instance M * table M);
  objects : DB → table M;
  set_objects : table M → DB → DB;
  cached : Cache → model_cache M;
  set_cached : model_cache M → Cache → Cache;
  objects_set_objects t d : objects (set_objects t d) = t;
  lessons_set_objects t d : lessons (set_objects t d) = lessons d;
  cached_set_cached mc c : cached (set_cached mc c) = mc;
  lesson_marks_set_cached mc c : lesson_marks (set_cached mc c) = lesson_marks c
}.

#[global, refine] Instance Group_model : Model Group := {|
  get_or_create := objects_get_or_create;
  objects := groups;
  set_objects t d :=
    {| groups := t; teachers := teachers d; classrooms := classrooms d;
       subjects := subjects d; lesson_times := lesson_times d; lessons := lessons d |};
  cached := group_cache;
  set_cached mc c :=
    {| group_cache := mc; teacher_cache := teacher_cache c;
       classroom_cache := classroom_cache c; subject_cache := subject_cache c;
       lesson_time_cache := lesson_time_cache c; lesson_marks := lesson_marks c |}
|}.
Proof. all: done. Defined.

#[global, refine] Instance Teacher_model : Model Teacher := {|
  get_or_create := teacher_get_or_create;
  objects := teachers;
  set_objects t d :=
    {| groups := groups d; teachers := t; classrooms := classrooms d;
       subjects := subjects d; lesson_times := lesson_times d; lessons := lessons d |};
  cached := teacher_cache;
  set_cached mc c :=
    {| group_cache := group_cache c; teacher_cache := mc;
       classroom_cache := classroom_cache c; subject_cache := subject_cache c;
       lesson_time_cache := lesson_time_cache c; lesson_marks := lesson_marks c |}
|}.
Proof. all: done. Defined.

#[global, refine] Instance Classroom_model : Model Classroom := {|
  get_or_create := objects_get_or_create;
  objects := classrooms;
  set_objects t d :=
    {| groups := groups d; teachers := teachers d; classrooms := t;
       subjects := subjects d; lesson_times := lesson_times d; lessons := lessons d |};
  cached := classroom_cache;
  set_cached mc c :=
    {| group_cache := group_cache c; teacher_cache := teacher_cache c;
       classroom_cache := mc; subject_cache := subject_cache c;
       lesson_time_cache := lesson_time_cache c; lesson_marks := lesson_marks c |}
|}.
Proof. all: done. Defined.

#[global, refine] Instance Subject_model : Model Subject := {|
  get_or_create := objects_get_or_create;
  objects := subjects;
  set_objects t d :=
    {| groups := groups d; teachers := teachers d; classrooms := classrooms d;
       subjects := t; lesson_times := lesson_times d; lessons := lessons d |};
  cached := subject_cache;
  set_cached mc c :=
    {| group_cache := group_cache c; teacher_cache := teacher_cache c;
       classroom_cache := classroom_cache c; subject_cache := mc;
       lesson_time_cache := lesson_time_cache c; lesson_marks := lesson_marks c |}
|}.
Proof. all: done. Defined.

#[global, refine] Instance LessonTime_model : Model LessonTime := {|
  get_or_create := lesson_time_get_or_create;
  objects := lesson_times;
  set_objects t d :=
    {| groups := groups d; teachers := teachers d; classrooms := classrooms d;
       subjects := subjects d; lesson_times := t; lessons := lessons d |};
  cached := lesson_time_cache;
  set_cached mc c :=
    {| group_cache := group_cache c; teacher_cache := teacher_cache c;
       classroom_cache := classroom_cache c; subject_cache := subject_cache c;
       lesson_time_cache := mc; lesson_marks := lesson_marks c |}
|}.
Proof. all: done. Defined.

(** ** The outside world *)

(** What [requests.get(url, timeout=10)] meets. *)
Inductive http_result :=
| ConnectionFailed
| TimedOut
| Response (status_code : Z) (content : soup).

(** The inputs of one run that the code reads from its environment: the
    remote site, [timezone.now().timestamp()] and [timezone.now().date()]. *)
Record Env := { web : string → http_result; now : Z; today : date }.

Definition MAIN_URL : string := "https://bincol.ru/rasp/".

(** [response.raise_for_status()] raises for the statuses 400 to 599;
    the error is logged and raised again. *)
Definition get_response_from_url (env : Env) (url : string) : outcome soup :=
  match web env url with
  | ConnectionFailed => Raised RequestException
  | TimedOut => Raised RequestException
  | Response status_code content =>
      if bool_decide (400 ≤ status_code < 600) then Raised RequestException
      else Returned content
  end.

(** Any exception is caught and answered by [BeautifulSoup()]. *)
Definition get_soup_from_url (env : Env) (url : string) : soup :=
  match get_response_from_url env url with
  | Returned content => content
  | Raised _ => []
  end.

(** ** Cache helpers *)

(** Truthiness of what [cache.get(lesson_key)] returns: [None] and the
    number zero are false. *)
Definition mark_truthy (v : option Z) : bool :=
  match v with
  | Some t => negb (bool_decide (t = 0))
  | None => false
  end.

(** [cache.set(key, timestamp, timeout=TIMEOUT_LESSONS)]. *)
Definition cache_lesson_key (key : lesson_key) (timestamp : Z) (st : State) : State :=
  set_cache (λ c, set_lesson_marks (<[key := timestamp]> (lesson_marks c)) c) st.

Definition cache_delete_lesson_key (key : lesson_key) (st : State) : State :=
  set_cache (λ c, set_lesson_marks (delete key (lesson_marks c)) c) st.

Definition make_lesson_cache_key (lesson : Lesson) : lesson_key :=
  (group_id lesson, subgroup lesson, lesson_time_id lesson,
   subject_id lesson, teacher_id lesson, classroom_id lesson).

(** A cached model instance is always truthy, so [if not obj] only holds
    on a miss.  An exception of [get_or_create] leaves the cache as it
    was. *)
Definition get_or_create_cached {M} `{Model M} (defaults : M) (st : State)
  : outcome (instance M) * State :=
  match by_params (cached (cache st)) !! defaults with
  | Some obj => (Returned obj, st)
  | None =>
      match get_or_create defaults (objects (db st)) with
      | Returned (obj, t) =>
          (Returned obj,
           set_cache (λ c, set_cached
                             (ModelCache (<[defaults := obj]> (by_params (cached c)))
                                         (by_id (cached c))) c)
             (set_db (set_objects t) st))
      | Raised e => (Raised e, st)
      end
  end.

(** On a miss the [try] block fetches the row and caches it, and the
    function ends without a [return]: the caller receives [None]. *)
Definition get_cached_by_id {M} `{Model M} (obj_id : Z) (st : State)
  : option (instance M) * State :=
  match by_id (cached (cache st)) !! obj_id with
  | Some obj => (Some obj, st)
  | None =>
      match objects_get (objects (db st)) obj_id with
      | Some obj =>
          (None,
           set_cache (λ c, set_cached
                             (ModelCache (by_params (cached c))
                                         (<[obj_id := obj]> (by_id (cached c)))) c) st)
      | None => (None, st)
      end
  end.

(** ** Parsing one group *)

Definition parse_group_lessons_data (env : Env) (group_id : Z) (st : State)
  : list lesson_dict * State :=
  let '(group_, st) := get_cached_by_id (M := Group) group_id st in
  match group_ with
  | None => ([], st)
  | Some group_ =>
      let url := String.append MAIN_URL (link (fields group_)) in
      let schedule_soup := get_soup_from_url env url in
      if negb (soup_bool schedule_soup) then ([], st)
      else
        let lessons_data := parse_group_schedule_soup group_id schedule_soup in
        (match lessons_data with
         | [] => [GroupOnly group_id]
         | _ => lessons_data
         end, st)
  end.

(** ** The create phase *)

(** A computation on the state that may raise; what was done to the
    state before the exception stays done. *)
Definition and_then {A B} (m : State → outcome A * State)
    (k : A → State → outcome B * State) (st : State) : outcome B * State :=
  match m st with
  | (Returned a, st') => k a st'
  | (Raised e, st') => (Raised e, st')
  end.

(** The local variables of the loop of [save_lessons]. *)
Record save_acc := SaveAcc {
  lessons_to_create : list Lesson;
  sa_affected_dates : gset date
}.

#[global] Instance save_acc_eq_dec : EqDecision save_acc.
Proof. solve_decision. Defined.

(** One iteration of the loop of [save_lessons]. *)
Definition save_lessons_step (acc : save_acc) (data : lesson_dict) (st : State)
  : outcome save_acc * State :=
  match data with
  | GroupOnly _ => (Returned acc, st)
  | LessonDict d number subject_t classroom_t teacher_n subgroup_ gid =>
      and_then (get_or_create_cached {| full_name := teacher_n |}) (λ teacher,
      and_then (get_or_create_cached {| classroom_title := classroom_t |}) (λ classroom,
      and_then (get_or_create_cached {| subject_title := subject_t |}) (λ subject st,
      let '(group_, st) := get_cached_by_id (M := Group) gid st in
      match group_ with
      | None => (Returned acc, st)
      | Some group_ =>
          and_then (get_or_create_cached {| lt_date := d; lesson_number := number |})
            (λ lesson_time st,
             let lesson :=
               {| group_id := pk group_; lesson_time_id := pk lesson_time;
                  subject_id := pk subject; teacher_id := pk teacher;
                  classroom_id := pk classroom; subgroup := subgroup_;
                  is_active := true |} in
             let key := make_lesson_cache_key lesson in
             let st' := cache_lesson_key key (current_timestamp st) st in
             if mark_truthy (lesson_marks (cache st) !! key)
             then (Returned acc, st')
             else (Returned
                     (SaveAcc (lessons_to_create acc ++ [lesson])
                        ({[ lt_date (fields lesson_time) ]} ∪ sa_affected_dates acc)),
                   st')) st
      end))) st
  end.

Fixpoint save_lessons_loop (lessons_data : list lesson_dict) (acc : save_acc)
    (st : State) : outcome save_acc * State :=
  match lessons_data with
  | [] => (Returned acc, st)
  | data :: rest => and_then (save_lessons_step acc data) (save_lessons_loop rest) st
  end.

(** The lessons gathered are written in one batch after the loop; an
    exception in the loop ends the function before that. *)
Definition save_lessons (lessons_data : list lesson_dict) (st : State)
  : outcome (gset date) * State :=
  match save_lessons_loop lessons_data (SaveAcc [] ∅) st with
  | (Returned acc, st') =>
      (Returned (sa_affected_dates acc),
       set_db (λ d, set_lessons (bulk_create (lessons_to_create acc) (lessons d)) d) st')
  | (Raised e, st') => (Raised e, st')
  end.

(** ** The sweep phase *)

(** [lesson.lesson_time.date], through the foreign key. *)
Definition lesson_date (d : DB) (lesson : Lesson) : option date :=
  lt_date <$> lesson_times d !! lesson_time_id lesson.

(** The filter [group__id=group_id, lesson_time__date__gte=today,
    is_active=True]. *)
Definition sweep_candidate (d : DB) (today_ : date) (gid : Z) (lesson : Lesson) : bool :=
  bool_decide (group_id lesson = gid)
  && match lesson_date d lesson with
     | Some ld => date_leb today_ ld
     | None => false
     end
  && is_active lesson.

Definition sweep_queryset (d : DB) (today_ : date) (gid : Z) : list (Z * Lesson) :=
  filter (λ p, sweep_candidate d today_ gid p.2) (map_to_list (lessons d)).

(** The state of the loop of [deactivate_canceled_lessons]. *)
Record sweep_acc := SweepAcc {
  sw_state : State;
  lessons_to_deactivate_ids : gset Z;
  sw_affected_dates : gset date
}.

(** [not cached_timestamp or cached_timestamp != current_timestamp]. *)
Definition mark_stale (v : option Z) (timestamp : Z) : bool :=
  negb (mark_truthy v) || negb (bool_decide (v = Some timestamp)).

Definition sweep_step (d : DB) (acc : sweep_acc) (p : Z * Lesson) : sweep_acc :=
  let st := sw_state acc in
  let key := make_lesson_cache_key p.2 in
  if mark_stale (lesson_marks (cache st) !! key) (current_timestamp st) then
    SweepAcc (cache_delete_lesson_key key st)
      ({[ p.1 ]} ∪ lessons_to_deactivate_ids acc)
      (match lesson_date d p.2 with
       | Some ld => {[ ld ]} ∪ sw_affected_dates acc
       | None => sw_affected_dates acc
       end)
  else acc.

Definition deactivate (lesson : Lesson) : Lesson :=
  {| group_id := group_id lesson; lesson_time_id := lesson_time_id lesson;
     subject_id := subject_id lesson; teacher_id := teacher_id lesson;
     classroom_id := classroom_id lesson; subgroup := subgroup lesson;
     is_active := false |}.

(** [Lesson.objects.filter(id__in=ids).update(is_active=False)]. *)
Definition update_inactive (ids : gset Z) (t : table Lesson) : table Lesson :=
  map_imap (λ id lesson, Some (if decide (id ∈ ids) then deactivate lesson else lesson)) t.

Definition sweep_loop (env : Env) (gid : Z) (st : State) : sweep_acc :=
  foldl (sweep_step (db st)) (SweepAcc st ∅ ∅) (sweep_queryset (db st) (today env) gid).

Definition deactivate_canceled_lessons (env : Env) (gid : Z) (st : State)
  : gset date * State :=
  let acc := sweep_loop env gid st in
  (sw_affected_dates acc,
   set_db (λ d, set_lessons (update_inactive (lessons_to_deactivate_ids acc) (lessons d)) d)
     (sw_state acc)).

(** ** One group job, and the cycle driver *)

(** The task returns nothing; the affected dates it computes are kept here
    beside the state so that they can be spoken about.  An exception of
    the create phase ends the task before the sweep. *)
Definition process_group_lessons_data (env : Env) (lessons_data : list lesson_dict)
    (st : State) : outcome (gset date) * State :=
  match lessons_data with
  | [] => (Returned ∅, st)
  | first :: _ =>
      let gid := dict_group_id first in
      and_then (save_lessons lessons_data) (λ affected_dates st,
        let '(affected_dates_deactivated, st) :=
          deactivate_canceled_lessons env gid st in
        (Returned (affected_dates ∪ affected_dates_deactivated), st)) st
  end.

(** [parse_group_lessons_data.s(group_id).set(link=process_group_lessons_data.s())]:
    the second task receives what the first returned. *)
Definition group_job (env : Env) (gid : Z) (st : State)
  : outcome (gset date) * State :=
  let '(lessons_data, st) := parse_group_lessons_data env gid st in
  process_group_lessons_data env lessons_data st.

(** [Group.objects.filter(is_active=True).values_list('id', flat=True)]. *)
Definition active_group_ids (d : DB) : list Z :=
  (filter (λ p, group_is_active p.2) (map_to_list (groups d))).*1.

(** The driver: what it answers its caller, the group jobs handed to
    [apply_async], and the state it leaves.  Only [RequestException] is
    caught. *)
Definition update_schedule (env : Env) (st : State) : outcome unit * list Z * State :=
  let st := set_current_timestamp (now env) st in
  match get_response_from_url env MAIN_URL with
  | Raised RequestException => (Returned (), [], st)
  | Raised e => (Raised e, [], st)
  | Returned _ => (Returned (), active_group_ids (db st), st)
  end.

(** * The parser *)

(** ** What the specification expects of the parser *)

Definition is_section (r : row) : Prop := has_colspan r = true.

#[global] Instance is_section_dec r : Decision (is_section r).
Proof. unfold is_section. apply _. Defined.

(** The section row that governs the row following [before]: the nearest
    preceding section row. *)
Definition governing_section (before : list row) : option row :=
  last (filter is_section before).

(** The entry expected of row [i]: none for a section row, none when no
    section row precedes it or when the date of the nearest one cannot be
    read, none unless the row has five cells; otherwise that date, the
    stripped texts of the cells, with the defaults for the last four, and
    the group. *)
Definition expected_entry (group_id : Z) (s : soup) (i : nat) : option lesson_dict :=
  r ← s !! i;
  if has_colspan r then None
  else
    sec ← governing_section (take i s);
    d ← section_date sec;
    match cells r with
    | [c0; c1; c2; c3; c4] =>
        Some (LessonDict d
                (strip c0)
                (if decide (strip c1 = "") then "не указано" else strip c1)
                (if decide (strip c2 = "") then "(дист)" else strip c2)
                (if decide (strip c3 = "") then "не указано" else strip c3)
                (if decide (strip c4 = "") then "0" else strip c4)
                group_id)
    | _ => None
    end.

Definition expected_entries (group_id : Z) (s : soup) : list lesson_dict :=
  omap (expected_entry group_id s) (seq 0 (length s)).

(** Row [i] is a five-cell data row governed by a section row whose date
    could be read. *)
Definition retained (s : soup) (i : nat) : Prop :=
  ∃ r sec d, s !! i = Some r ∧ has_colspan r = false ∧ length (cells r) = 5%nat
             ∧ governing_section (take i s) = Some sec ∧ section_date sec = Some d.

(** ** Reading dates *)

Lemma byte_ascii_of_Z n : 0 ≤ n < 256 → byte (ascii_of_Z n) = n.
Proof.
  intros Hn. unfold byte, ascii_of_Z.
  rewrite N_ascii_embedding by lia. lia.
Qed.

Lemma code_points_from_ascii (l : list Z) :
  Forall (λ n, 0 ≤ n < 128) l →
  code_points_from 0 0 (ascii_of_Z <$> l) = l.
Proof.
  induction 1 as [|n l Hn _ IH]; [done|].
  cbn [fmap list_fmap code_points_from].
  rewrite byte_ascii_of_Z by lia.
  rewrite bool_decide_eq_true_2 by lia. by rewrite IH.
Qed.

Lemma code_points_ascii (l : list Z) :
  Forall (λ n, 0 ≤ n < 128) l →
  code_points (string_of_list_ascii (ascii_of_Z <$> l)) = l.
Proof.
  intros Hl. unfold code_points.
  rewrite list_ascii_of_string_of_list_ascii. by apply code_points_from_ascii.
Qed.

Lemma decimal_value_ascii k : 0 ≤ k ≤ 9 → decimal_value (48 + k) = Some k.
Proof.
  intros Hk. unfold decimal_value, decimal_starts. cbn [find].
  rewrite bool_decide_eq_true_2 by lia. cbn [fmap option_fmap option_map].
  f_equal. lia.
Qed.

Lemma decimal_value_range cp v : decimal_value cp = Some v → 0 ≤ v ≤ 9.
Proof.
  unfold decimal_value.
  destruct (find _ decimal_starts) as [start|] eqn:Hf; [|done].
  apply find_some in Hf as [_ Hb]. apply bool_decide_eq_true_1 in Hb.
  intros [= <-]. lia.
Qed.

Lemma ascii_digit_range lo hi cp v : ascii_digit lo hi cp = Some v → lo ≤ v ≤ hi.
Proof.
  unfold ascii_digit. case_bool_decide; [|done]. intros [= <-]. lia.
Qed.

Lemma directive_d_range w n : directive_d w = Some n → 1 ≤ n ≤ 31.
Proof.
  unfold directive_d. destruct w as [|a [|b [|? ?]]]; try done.
  - intros ?%ascii_digit_range. lia.
  - repeat case_decide.
    + destruct (ascii_digit 0 1 b) as [y|] eqn:Hy; [|done].
      apply ascii_digit_range in Hy. intros [= <-]. lia.
    + destruct (decimal_value b) as [y|] eqn:Hy; [|done].
      apply decimal_value_range in Hy. intros [= <-]. lia.
    + intros ?%ascii_digit_range. lia.
    + intros ?%ascii_digit_range. lia.
    + done.
Qed.

Lemma directive_m_range w n : directive_m w = Some n → 1 ≤ n ≤ 12.
Proof.
  unfold directive_m. destruct w as [|a [|b [|? ?]]]; try done.
  - intros ?%ascii_digit_range. lia.
  - repeat case_decide.
    + destruct (ascii_digit 0 2 b) as [y|] eqn:Hy; [|done].
      apply ascii_digit_range in Hy. intros [= <-]. lia.
    + intros ?%ascii_digit_range. lia.
    + done.
Qed.

Lemma directive_Y_range w n : directive_Y w = Some n → 0 ≤ n ≤ 9999.
Proof.
  unfold directive_Y. destruct w as [|a [|b [|c [|d [|? ?]]]]]; try done.
  destruct (decimal_value a) as [x|] eqn:Hx; [|done].
  destruct (decimal_value b) as [y|] eqn:Hy; [|done].
  destruct (decimal_value c) as [z|] eqn:Hz; [|done].
  destruct (decimal_value d) as [t|] eqn:Ht; [|done].
  apply decimal_value_range in Hx, Hy, Hz, Ht. intros [= <-]. lia.
Qed.

(** Every date read is a day of the calendar. *)
Lemma strptime_dmy_valid s d : strptime_dmy s = Some d → valid_date d.
Proof.
  unfold strptime_dmy.
  destruct (split_dots (code_points s)) as [|wd [|wm [|wy [|? ?]]]]; try done.
  destruct (directive_d wd) as [dd|] eqn:Hd; [|done].
  destruct (directive_m wm) as [mm|] eqn:Hm; [|done].
  destruct (directive_Y wy) as [yy|] eqn:Hy; [|done].
  cbn [mbind option_bind].
  apply directive_d_range in Hd. apply directive_m_range in Hm.
  apply directive_Y_range in Hy.
  destruct (bool_decide (1 ≤ yy)) eqn:H1; [|done].
  destruct (bool_decide (dd ≤ days_in_month yy mm)) eqn:H2; [|done].
  apply bool_decide_eq_true_1 in H1, H2.
  intros [= <-]. unfold valid_date. cbn [year month day]. lia.
Qed.

Lemma forallb_seqZ (P : Z → Prop) `{∀ n, Decision (P n)} (lo len : Z) :
  forallb (λ n, bool_decide (P n)) (seqZ lo len) = true →
  ∀ n, lo ≤ n < lo + len → P n.
Proof.
  intros Hall n Hn. rewrite forallb_forall in Hall.
  eapply bool_decide_eq_true_1, Hall. apply list_elem_of_In, elem_of_seqZ. lia.
Qed.

Lemma directive_d_two_digits n :
  1 ≤ n ≤ 31 → directive_d [48 + n / 10; 48 + n mod 10] = Some n.
Proof.
  intros Hn.
  apply (forallb_seqZ (λ n, directive_d [48 + n / 10; 48 + n mod 10] = Some n) 1 31);
    [by vm_compute|lia].
Qed.

Lemma directive_m_two_digits n :
  1 ≤ n ≤ 12 → directive_m [48 + n / 10; 48 + n mod 10] = Some n.
Proof.
  intros Hn.
  apply (forallb_seqZ (λ n, directive_m [48 + n / 10; 48 + n mod 10] = Some n) 1 12);
    [by vm_compute|lia].
Qed.

(** Linear arithmetic with quotients and remainders by constants. *)
Ltac div_lia := Z.div_mod_to_equations; lia.

Lemma directive_Y_four_digits y :
  0 ≤ y ≤ 9999 →
  directive_Y [48 + y / 1000; 48 + (y / 100) mod 10; 48 + (y / 10) mod 10;
               48 + y mod 10] = Some y.
Proof.
  intros Hy. unfold directive_Y.
  rewrite !decimal_value_ascii by div_lia.
  cbn [mbind option_bind]. f_equal. div_lia.
Qed.

(** Reading what [strftime] wrote gives the date back. *)
Lemma strptime_strftime d : valid_date d → strptime_dmy (strftime_dmy d) = Some d.
Proof.
  intros ((Hy1 & Hy2) & (Hm1 & Hm2) & (Hd1 & Hd2)).
  assert (day d ≤ 31) as Hd3.
  { unfold days_in_month in Hd2. destruct (is_leap (year d)); repeat case_decide; lia. }
  unfold strptime_dmy, strftime_dmy.
  rewrite code_points_ascii by (repeat constructor; div_lia).
  unfold split_dots.
  rewrite !decide_False by div_lia. rewrite !decide_True by done.
  rewrite !decide_False by div_lia. rewrite !decide_True by done.
  rewrite !decide_False by div_lia.
  rewrite directive_d_two_digits, directive_m_two_digits, directive_Y_four_digits
    by lia.
  cbn [mbind option_bind].
  rewrite !bool_decide_eq_true_2 by lia. by destruct d.
Qed.

Lemma prefix_cons_ne sep c c' s :
  c ≠ c' → String.prefix (String c sep) (String c' s) = false.
Proof. intros Hne. cbn [String.prefix]. by destruct (ascii_dec c c'). Qed.

Lemma prefix_append sep rest : String.prefix sep (String.append sep rest) = true.
Proof.
  induction sep as [|c sep IH].
  - by destruct rest.
  - change (String c sep +:+ rest) with (String c (sep +:+ rest)).
    cbn [String.prefix]. destruct (ascii_dec c c); [apply IH|done].
Qed.

(** A text without the first character of the separator, followed by the
    separator: the head is that text. *)
Lemma split_head_append (c : ascii) (sep : string) (l : list ascii) (rest : string) :
  Forall (λ x, x ≠ c) l →
  split_head (String c sep)
    (String.append (string_of_list_ascii l) (String.append (String c sep) rest))
  = string_of_list_ascii l.
Proof.
  induction 1 as [|x l Hx _ IH].
  - change (string_of_list_ascii [] +:+ (String c sep +:+ rest))
      with (String c sep +:+ rest).
    destruct (String c sep +:+ rest) eqn:Heq; [done|].
    cbn [split_head]. rewrite <- Heq. by rewrite prefix_append.
  - change (string_of_list_ascii (x :: l) +:+ (String c sep +:+ rest))
      with (String x (string_of_list_ascii l +:+ (String c sep +:+ rest))).
    cbn [split_head]. rewrite prefix_cons_ne by done. by rewrite IH.
Qed.

Lemma ascii_of_Z_inj a b : 0 ≤ a < 256 → 0 ≤ b < 256 → ascii_of_Z a = ascii_of_Z b → a = b.
Proof.
  intros Ha Hb Heq. rewrite <- (byte_ascii_of_Z a), <- (byte_ascii_of_Z b) by done.
  by rewrite Heq.
Qed.

(** A section row whose stripped text is a date in the form day, month,
    four-digit year, then blank, hyphen, blank, then anything, has that
    date. *)
Lemma section_date_reads r d rest :
  valid_date d →
  strip (row_text r) = String.append (strftime_dmy d) (String.append " - " rest) →
  section_date r = Some d.
Proof.
  intros Hv Htext. unfold section_date. rewrite Htext.
  unfold strftime_dmy at 1. rewrite split_head_append.
  - by apply strptime_strftime.
  - destruct Hv as ((Hy1 & Hy2) & (Hm1 & Hm2) & (Hd1 & Hd2)).
    assert (day d ≤ 31) as Hd3.
    { unfold days_in_month in Hd2. destruct (is_leap (year d)); repeat case_decide; lia. }
    cbn [fmap list_fmap]. change " "%char with (ascii_of_Z 32).
    repeat constructor; intros Heq; apply ascii_of_Z_inj in Heq; div_lia.
Qed.

(** ** The loop against the expectation *)

Lemma governing_section_snoc before r :
  governing_section (before ++ [r]) =
  if has_colspan r then Some r else governing_section before.
Proof.
  unfold governing_section. rewrite filter_app, filter_cons, filter_nil.
  destruct (decide (is_section r)) as [Hs|Hs]; unfold is_section in Hs.
  - by rewrite Hs, last_snoc.
  - apply not_true_is_false in Hs. by rewrite Hs, app_nil_r.
Qed.

(** The entry expected of the row [r] that follows [before]. *)
Definition expected_after (group_id : Z) (before : list row) (r : row)
  : option lesson_dict :=
  if has_colspan r then None
  else
    sec ← governing_section before;
    d ← section_date sec;
    match cells r with
    | [c0; c1; c2; c3; c4] =>
        Some (LessonDict d
                (strip c0)
                (if decide (strip c1 = "") then "не указано" else strip c1)
                (if decide (strip c2 = "") then "(дист)" else strip c2)
                (if decide (strip c3 = "") then "не указано" else strip c3)
                (if decide (strip c4 = "") then "0" else strip c4)
                group_id)
    | _ => None
    end.

Lemma expected_entry_middle group_id before r rest :
  expected_entry group_id (before ++ r :: rest) (length before)
  = expected_after group_id before r.
Proof.
  unfold expected_entry, expected_after.
  rewrite list_lookup_middle by done. cbn [mbind option_bind].
  by rewrite take_app_length.
Qed.

(** The date the loop holds after [before] is the date of the governing
    section row. *)
Lemma parse_row_governing group_id before acc r :
  parse_row group_id (governing_section before ≫= section_date, acc) r =
  (governing_section (before ++ [r]) ≫= section_date,
   acc ++ option_list (expected_after group_id before r)).
Proof.
  rewrite governing_section_snoc. unfold parse_row, expected_after.
  destruct (has_colspan r); cbn [mbind option_bind option_list];
    [by rewrite app_nil_r|].
  destruct (governing_section before) as [sec|]; cbn [mbind option_bind option_list];
    [|by rewrite app_nil_r].
  destruct (section_date sec) as [d|]; cbn [mbind option_bind option_list];
    [|by rewrite app_nil_r].
  unfold make_lesson_dict.
  destruct (cells r) as [|c0 [|c1 [|c2 [|c3 [|c4 [|? ?]]]]]];
    cbn [option_list]; by rewrite ?app_nil_r.
Qed.

Lemma parse_loop_expected group_id rest : ∀ before acc,
  (foldl (parse_row group_id) (governing_section before ≫= section_date, acc) rest).2 =
  acc ++ omap (expected_entry group_id (before ++ rest))
              (seq (length before) (length rest)).
Proof.
  induction rest as [|r rest IH]; intros before acc.
  - cbn [foldl length seq omap list_omap snd]. by rewrite app_nil_r.
  - cbn [foldl]. rewrite parse_row_governing, IH.
    rewrite <- app_assoc. cbn [app]. rewrite length_app. cbn [length].
    replace (length before + 1)%nat with (S (length before)) by lia.
    rewrite <- app_assoc. f_equal.
    cbn [seq omap list_omap].
    rewrite expected_entry_middle.
    by destruct (expected_after group_id before r).
Qed.

Lemma parse_matches_expected group_id s :
  parse_group_schedule_soup group_id s = expected_entries group_id s.
Proof.
  unfold parse_group_schedule_soup, expected_entries.
  change (None, @nil lesson_dict)
    with (governing_section [] ≫= section_date, @nil lesson_dict).
  by rewrite (parse_loop_expected group_id s [] []).
Qed.

Lemma expected_entry_is_Some group_id s i :
  is_Some (expected_entry group_id s i) ↔ retained s i.
Proof.
  unfold expected_entry, retained. split.
  - intros [e He]. destruct (s !! i) as [r|]; [|done].
    cbn [mbind option_bind] in He.
    destruct (has_colspan r) eqn:Hc; [done|].
    destruct (governing_section (take i s)) as [sec|]; [|done].
    cbn [mbind option_bind] in He.
    destruct (section_date sec) as [d|] eqn:Hd; [|done].
    cbn [mbind option_bind] in He.
    exists r, sec, d. repeat split; try done.
    by destruct (cells r) as [|? [|? [|? [|? [|? [|? ?]]]]]].
  - intros (r & sec & d & Hr & Hc & Hlen & Hsec & Hd).
    rewrite Hr. cbn [mbind option_bind]. rewrite Hc, Hsec.
    cbn [mbind option_bind]. rewrite Hd. cbn [mbind option_bind].
    by destruct (cells r) as [|? [|? [|? [|? [|? [|? ?]]]]]].
Qed.

#[global] Instance retained_dec s i : Decision (retained s i).
Proof.
  refine (cast_if (decide (is_Some (expected_entry 0 s i))));
    by rewrite <- expected_entry_is_Some.
Defined.

Lemma length_omap_filter {A B} (f : A → option B) (l : list A) :
  length (omap f l) = length (filter (λ x, is_Some (f x)) l).
Proof.
  induction l as [|x l IH]; [done|]. rewrite filter_cons. cbn [omap list_omap].
  destruct (decide (is_Some (f x))) as [[y Hy]|Hn].
  - rewrite Hy. cbn [length]. by rewrite IH.
  - destruct (f x); [by destruct Hn|done].
Qed.

(** The state of the loop after a prefix is what a fresh run over a
    suffix that starts with a section row needs: nothing. *)
Lemma parse_loop_section group_id r rest cur acc :
  has_colspan r = true →
  (foldl (parse_row group_id) (cur, acc) (r :: rest)).2 =
  acc ++ parse_group_schedule_soup group_id (r :: rest).
Proof.
  intros Hr. unfold parse_group_schedule_soup. cbn [foldl].
  unfold parse_row at 2 4. rewrite Hr.
  assert (∀ l d a b,
    (foldl (parse_row group_id) (d, a ++ b) l).2 =
    a ++ (foldl (parse_row group_id) (d, b) l).2) as Happ.
  { clear. induction l as [|x l IH]; intros d a b; [done|].
    cbn [foldl]. unfold parse_row at 2 4.
    destruct (has_colspan x); [apply IH|].
    destruct d as [d|]; [|apply IH].
    destruct (make_lesson_dict d group_id x); [|apply IH].
    rewrite <- app_assoc. apply IH. }
  rewrite <- (app_nil_r acc) at 1. apply Happ.
Qed.

Lemma parse_app_section group_id before r rest :
  has_colspan r = true →
  parse_group_schedule_soup group_id (before ++ r :: rest) =
  parse_group_schedule_soup group_id before
  ++ parse_group_schedule_soup group_id (r :: rest).
Proof.
  intros Hr. unfold parse_group_schedule_soup at 1 2.
  rewrite foldl_app.
  destruct (foldl (parse_row group_id) (None, []) before) as [cur acc].
  by apply parse_loop_section.
Qed.

Lemma parse_loop_no_date group_id mid acc :
  Forall (λ r, has_colspan r = false) mid →
  foldl (parse_row group_id) (None, acc) mid = (None, acc).
Proof.
  induction 1 as [|r mid Hr _ IH]; [done|].
  cbn [foldl]. unfold parse_row at 2. by rewrite Hr.
Qed.

Lemma parse_failed_section group_id sec mid :
  has_colspan sec = true → section_date sec = None →
  Forall (λ r, has_colspan r = false) mid →
  parse_group_schedule_soup group_id (sec :: mid) = [].
Proof.
  intros Hs Hd Hmid. unfold parse_group_schedule_soup. cbn [foldl].
  unfold parse_row at 2. rewrite Hs, Hd.
  by rewrite parse_loop_no_date.
Qed.

(** Where an entry of the parser comes from. *)
Lemma parse_entry_origin group_id s data :
  data ∈ parse_group_schedule_soup group_id s →
  ∃ i r sec d,
    s !! i = Some r ∧ has_colspan r = false
    ∧ governing_section (take i s) = Some sec ∧ section_date sec = Some d
    ∧ make_lesson_dict d group_id r = Some data.
Proof.
  rewrite parse_matches_expected. unfold expected_entries.
  intros (i & _ & Hi)%list_elem_of_omap.
  unfold expected_entry in Hi.
  destruct (s !! i) as [r|] eqn:Hr; [|done]. cbn [mbind option_bind] in Hi.
  destruct (has_colspan r) eqn:Hc; [done|].
  destruct (governing_section (take i s)) as [sec|] eqn:Hsec; [|done].
  cbn [mbind option_bind] in Hi.
  destruct (section_date sec) as [d|] eqn:Hd; [|done].
  cbn [mbind option_bind] in Hi.
  by exists i, r, sec, d.
Qed.

(** C4.  The parser yields, in document order, exactly one entry for each
    five-cell data row governed by a section row whose date could be
    read, and nothing else: the entry carries the date of the nearest
    preceding section row, the stripped cell texts and the group.  The
    number of entries is the number of such rows.  A section row whose
    date cannot be read contributes nothing, nor do the rows after it, up
    to the next section row, from which parsing goes on as if the
    document started there.  Every entry comes from a five-cell data
    row and carries the date read from the nearest section row before
    that row.  The date of a section row is the calendar day written
    before the first blank-hyphen-blank of its stripped text: a day
    written as day, month and four-digit year is read as that day, and
    whatever is read is a day of the calendar. *)
Theorem parse_group_schedule_soup_sections (group_id : Z) (s : soup) :
  parse_group_schedule_soup group_id s = expected_entries group_id s
  ∧ length (parse_group_schedule_soup group_id s)
    = length (filter (retained s) (seq 0 (length s)))
  ∧ (∀ before sec mid,
       s = before ++ sec :: mid →
       has_colspan sec = true → section_date sec = None →
       Forall (λ r, has_colspan r = false) mid →
       parse_group_schedule_soup group_id s
       = parse_group_schedule_soup group_id before)
  ∧ (∀ before sec mid next rest,
       s = before ++ sec :: mid ++ next :: rest →
       has_colspan sec = true → section_date sec = None →
       Forall (λ r, has_colspan r = false) mid →
       has_colspan next = true →
       parse_group_schedule_soup group_id s
       = parse_group_schedule_soup group_id before
         ++ parse_group_schedule_soup group_id (next :: rest))
  ∧ (∀ data,
       data ∈ parse_group_schedule_soup group_id s →
       ∃ i r sec d,
         s !! i = Some r ∧ has_colspan r = false ∧ length (cells r) = 5%nat
         ∧ governing_section (take i s) = Some sec
         ∧ section_date sec = Some d ∧ valid_date d
         ∧ dict_date data = Some d ∧ dict_group_id data = group_id)
  ∧ (∀ sec d rest,
       valid_date d →
       strip (row_text sec)
       = String.append (strftime_dmy d) (String.append " - " rest) →
       section_date sec = Some d)
  ∧ (∀ sec d, section_date sec = Some d → valid_date d).
Proof.
  split; [apply parse_matches_expected|]. split.
  { rewrite parse_matches_expected. unfold expected_entries.
    rewrite length_omap_filter. f_equal.
    apply list_filter_iff. intros i. apply expected_entry_is_Some. }
  split.
  { intros before sec mid -> Hs Hd Hmid.
    rewrite parse_app_section by done.
    by rewrite parse_failed_section, app_nil_r. }
  split.
  { intros before sec mid next rest -> Hs Hd Hmid Hn.
    rewrite parse_app_section by done. f_equal.
    change (sec :: mid ++ next :: rest) with ((sec :: mid) ++ next :: rest).
    rewrite (parse_app_section group_id (sec :: mid) next rest Hn).
    by rewrite parse_failed_section. }
  split.
  { intros data (i & r & sec & d & Hr & Hc & Hsec & Hd & Hmk)%parse_entry_origin.
    exists i, r, sec, d. unfold make_lesson_dict in Hmk.
    destruct (cells r) as [|c0 [|c1 [|c2 [|c3 [|c4 [|? ?]]]]]]; try done.
    injection Hmk as <-.
    pose proof (strptime_dmy_valid _ _ Hd) as Hvalid.
    by repeat (split; [done|]). }
  split.
  { intros sec d rest. apply section_date_reads. }
  intros sec d. apply strptime_dmy_valid.
Qed.

(** A document with a readable section, a section whose date cannot be
    read, and a further readable section, one row of which has a cell that
    holds a no-break space only. *)
Definition sample_soup : soup :=
  [ Row true "01.09.2024 - Воскресенье" [];
    Row false "" ["1"; "Математика"; "101"; "Иванов И.И."; "1"];
    Row true "расписание - замены" [];
    Row false "" ["2"; "Физика"; "102"; "Петров П.П."; "0"];
    Row true "02.09.2024 - Понедельник" [];
    Row false "" ["1"; "Химия"; nbsp; ""; " "];
    Row false "" ["2"; "Химия"] ].

Example parse_sample_soup :
  parse_group_schedule_soup 7 sample_soup =
  [ LessonDict (Date 2024 9 1) "1" "Математика" "101" "Иванов И.И." "1" 7;
    LessonDict (Date 2024 9 2) "1" "Химия" "(дист)" "не указано" "0" 7 ].
Proof. vm_compute. reflexivity. Qed.

Lemma parse_group_schedule_soup_sections_witness :
  (parse_group_schedule_soup 7 sample_soup =
   parse_group_schedule_soup 7 (take 2 sample_soup)
   ++ parse_group_schedule_soup 7 (drop 4 sample_soup))
  ∧ section_date (Row true "02.09.2024 - Понедельник" []) = Some (Date 2024 9 2)
  ∧ valid_date (Date 2024 9 2).
Proof.
  destruct (parse_group_schedule_soup_sections 7 sample_soup)
    as (_ & _ & _ & Hresume & _ & Hread & Hvalid).
  assert (section_date (Row true "02.09.2024 - Понедельник" [])
          = Some (Date 2024 9 2)) as Hd.
  { apply (Hread _ (Date 2024 9 2) "Понедельник").
    - repeat split; by vm_compute.
    - vm_compute. reflexivity. }
  split; [|split; [exact Hd|exact (Hvalid _ _ Hd)]].
  apply (Hresume (take 2 sample_soup)
           (Row true "расписание - замены" [])
           [Row false "" ["2"; "Физика"; "102"; "Петров П.П."; "0"]]
           (Row true "02.09.2024 - Понедельник" [])
           (drop 5 sample_soup)).
  - reflexivity.
  - reflexivity.
  - vm_compute. reflexivity.
  - repeat constructor.
  - reflexivity.
Defined.

(** ** Field defaults *)

(** No field of the entry is the empty string. *)
Definition no_empty_field (data : lesson_dict) : Prop :=
  match data with
  | LessonDict _ number subject_t classroom_t teacher_n subgroup_ _ =>
      number ≠ "" ∧ subject_t ≠ "" ∧ classroom_t ≠ "" ∧ teacher_n ≠ ""
      ∧ subgroup_ ≠ ""
  | GroupOnly _ => True
  end.

(** A retained row whose first cell is blank. *)
Definition blank_number_soup : soup :=
  [ Row true "01.09.2024 - Воскресенье" [];
    Row false "" [" "; "Математика"; "101"; "Иванов И.И."; "1"] ].

(** C9 as stated fails: the lesson number has no default, so a blank first
    cell gives an entry whose lesson number is the empty string. *)
Lemma lesson_number_left_empty :
  parse_group_schedule_soup 7 blank_number_soup
  = [LessonDict (Date 2024 9 1) "" "Математика" "101" "Иванов И.И." "1" 7]
  ∧ ¬ (∀ group_id s data,
         data ∈ parse_group_schedule_soup group_id s → no_empty_field data).
Proof.
  assert (parse_group_schedule_soup 7 blank_number_soup
          = [LessonDict (Date 2024 9 1) "" "Математика" "101" "Иванов И.И." "1" 7])
    as Hparse by (vm_compute; reflexivity).
  split; [exact Hparse|].
  intros H.
  destruct (H 7 blank_number_soup
              (LessonDict (Date 2024 9 1) "" "Математика" "101" "Иванов И.И." "1" 7))
    as [Hn _].
  - rewrite Hparse. apply list_elem_of_here.
  - by apply Hn.
Qed.

Lemma str_or_nonempty x default : default ≠ "" → str_or x default ≠ "".
Proof. intros Hd. unfold str_or. by destruct (decide (x = "")). Qed.

(** C9, amended.  Every entry of the parser comes from a data row with
    five cells; its subject, classroom, teacher and subgroup are the
    stripped cell texts, replaced by their defaults when these are empty,
    and so never empty; its lesson number is the stripped text of the
    first cell as it stands. *)
Theorem parsed_fields_defaulted (group_id : Z) (s : soup) (data : lesson_dict) :
  data ∈ parse_group_schedule_soup group_id s →
  ∃ r d c0 c1 c2 c3 c4 subject_t classroom_t teacher_n subgroup_,
    r ∈ s ∧ has_colspan r = false ∧ cells r = [c0; c1; c2; c3; c4]
    ∧ data = LessonDict d (strip c0) subject_t classroom_t teacher_n subgroup_ group_id
    ∧ subject_t = (if decide (strip c1 = "") then "не указано" else strip c1)
    ∧ classroom_t = (if decide (strip c2 = "") then "(дист)" else strip c2)
    ∧ teacher_n = (if decide (strip c3 = "") then "не указано" else strip c3)
    ∧ subgroup_ = (if decide (strip c4 = "") then "0" else strip c4)
    ∧ subject_t ≠ "" ∧ classroom_t ≠ "" ∧ teacher_n ≠ "" ∧ subgroup_ ≠ "".
Proof.
  intros (i & r & sec & d & Hr & Hc & _ & _ & Hmk)%parse_entry_origin.
  unfold make_lesson_dict in Hmk.
  destruct (cells r) as [|c0 [|c1 [|c2 [|c3 [|c4 [|? ?]]]]]] eqn:Hcells;
    try done.
  injection Hmk as <-.
  exists r, d, c0, c1, c2, c3, c4.
  eexists _, _, _, _.
  split; [by eapply list_elem_of_lookup_2|].
  repeat split; try done; by apply str_or_nonempty.
Qed.

(** The entry of the row whose classroom cell holds a no-break space: the
    cell strips to nothing and the default is stored. *)
Lemma parsed_fields_defaulted_witness :
  ∃ r d c0 c1 c2 c3 c4 subject_t classroom_t teacher_n subgroup_,
    r ∈ sample_soup ∧ has_colspan r = false ∧ cells r = [c0; c1; c2; c3; c4]
    ∧ LessonDict (Date 2024 9 2) "1" "Химия" "(дист)" "не указано" "0" 7
      = LessonDict d (strip c0) subject_t classroom_t teacher_n subgroup_ 7
    ∧ subject_t = (if decide (strip c1 = "") then "не указано" else strip c1)
    ∧ classroom_t = (if decide (strip c2 = "") then "(дист)" else strip c2)
    ∧ teacher_n = (if decide (strip c3 = "") then "не указано" else strip c3)
    ∧ subgroup_ = (if decide (strip c4 = "") then "0" else strip c4)
    ∧ subject_t ≠ "" ∧ classroom_t ≠ "" ∧ teacher_n ≠ "" ∧ subgroup_ ≠ "".
Proof.
  apply (parsed_fields_defaulted 7 sample_soup).
  rewrite parse_sample_soup. apply list_elem_of_further, list_elem_of_here.
Defined.

(** * Sample states *)

Definition empty_model_cache {M} `{Countable M} : model_cache M := ModelCache ∅ ∅.

Definition empty_cache : Cache :=
  {| group_cache := empty_model_cache; teacher_cache := empty_model_cache;
     classroom_cache := empty_model_cache; subject_cache := empty_model_cache;
     lesson_time_cache := empty_model_cache; lesson_marks := ∅ |}.

Definition sample_group : Group := {| link := "cg7.htm"; group_is_active := true |}.

(** A database that holds one active group, of primary key 7, and nothing
    else. *)
Definition sample_db : DB :=
  {| groups := {[ 7 := sample_group ]}; teachers := ∅; classrooms := ∅;
     subjects := ∅; lesson_times := ∅; lessons := ∅ |}.

(** Nothing cached yet; the epoch is [epoch]. *)
Definition cold_state (epoch : Z) : State :=
  {| db := sample_db; cache := empty_cache; current_timestamp := epoch |}.

(** The same after group 7 has been looked up once, so that it is cached. *)
Definition warm_state (epoch : Z) : State :=
  (get_cached_by_id (M := Group) 7 (cold_state epoch)).2.

(** A table of lesson times with one row: the first lesson of
    2 September 2024. *)
Definition sample_lesson_times : table LessonTime :=
  {[ 1 := {| lt_date := Date 2024 9 2; lesson_number := "1" |} ]}.

(** Group 7 is cached and the lesson times of [sample_lesson_times] are
    stored. *)
Definition timetabled_state (epoch : Z) : State :=
  set_db (set_objects sample_lesson_times) (warm_state epoch).

Definition sample_url : string := "https://bincol.ru/rasp/cg7.htm".

(** The site answers every request with status 200 and the given document. *)
Definition env_serving (s : soup) (today_ : date) : Env :=
  {| web := λ _, Response 200 s; now := 1725148800; today := today_ |}.

(** The site cannot be reached. *)
Definition env_down (today_ : date) : Env :=
  {| web := λ _, ConnectionFailed; now := 1725148800; today := today_ |}.

(** The site answers every request with status 503. *)
Definition env_unavailable (today_ : date) : Env :=
  {| web := λ _, Response 503 []; now := 1725148800; today := today_ |}.

(** * Lookup by primary key *)

Lemma get_cached_by_id_hit {M} `{Model M} (obj_id : Z) (st : State) obj :
  by_id (cached (cache st)) !! obj_id = Some obj →
  get_cached_by_id obj_id st = (Some obj, st).
Proof. intros Hhit. unfold get_cached_by_id. by rewrite Hhit. Qed.

(** C6.  Whatever the model class, when the cache holds nothing for the
    identifier, [get_cached_by_id] answers [None]: if the row exists it is
    fetched and cached under that identifier, the database being left as
    it was, and still [None] is answered; if the row does not exist the
    state is unchanged.  So [parse_group_lessons_data] answers the empty
    list for a group that is not in the cache. *)
Theorem get_cached_by_id_miss :
  (∀ (M : Type) `(Model M) (obj_id : Z) (st : State),
     by_id (cached (cache st)) !! obj_id = None →
     (get_cached_by_id obj_id st).1 = None
     ∧ (∀ m, objects (db st) !! obj_id = Some m →
          by_id (cached (cache (get_cached_by_id obj_id st).2))
          = <[obj_id := Instance obj_id m]> (by_id (cached (cache st)))
          ∧ db (get_cached_by_id obj_id st).2 = db st)
     ∧ (objects (db st) !! obj_id = None → (get_cached_by_id obj_id st).2 = st))
  ∧ (∀ (env : Env) (group_id : Z) (st : State),
       by_id (group_cache (cache st)) !! group_id = None →
       (parse_group_lessons_data env group_id st).1 = []).
Proof.
  split.
  - intros M ?? HM obj_id st Hmiss. unfold get_cached_by_id. rewrite Hmiss.
    unfold objects_get.
    destruct (objects (db st) !! obj_id) as [m|]; simpl.
    + split; [done|]. split; [|done].
      intros m' [= <-]. by rewrite cached_set_cached.
    + split; [done|]. split; [done|]. done.
  - intros env group_id st Hmiss. unfold parse_group_lessons_data.
    unfold get_cached_by_id. simpl. rewrite Hmiss.
    by destruct (objects_get (groups (db st)) group_id).
Qed.

Lemma get_cached_by_id_miss_witness :
  (get_cached_by_id (M := Group) 7 (cold_state 5)).1 = None
  ∧ by_id (group_cache (cache (warm_state 5))) = {[ 7 := Instance 7 sample_group ]}
  ∧ (parse_group_lessons_data (env_serving sample_soup (Date 2024 9 1)) 7 (cold_state 5)).1 = []
  ∧ (parse_group_lessons_data (env_serving sample_soup (Date 2024 9 1)) 7 (warm_state 5)).1
    = parse_group_schedule_soup 7 sample_soup.
Proof.
  destruct get_cached_by_id_miss as [Hget Hparse].
  assert (by_id (group_cache (cache (cold_state 5))) !! 7 = None) as Hmiss
    by reflexivity.
  destruct (Hget Group _ _ Group_model 7 (cold_state 5) Hmiss)
    as (Hnone & Hrow & _).
  assert (groups (db (cold_state 5)) !! 7 = Some sample_group) as Hdb
    by reflexivity.
  destruct (Hrow sample_group Hdb) as [Hcache _].
  split; [exact Hnone|]. split; [exact Hcache|].
  split; [exact (Hparse _ 7 (cold_state 5) Hmiss)|].
  by vm_compute.
Defined.

(** * Fetch failure against an empty document *)

Lemma parse_group_lessons_data_cached env group_id st g :
  by_id (group_cache (cache st)) !! group_id = Some g →
  parse_group_lessons_data env group_id st =
  (match parse_group_schedule_soup group_id
           (get_soup_from_url env (String.append MAIN_URL (link (fields g)))) with
   | [] => [GroupOnly group_id]
   | lessons_data => lessons_data
   end, st).
Proof.
  intros Hhit. unfold parse_group_lessons_data.
  unfold get_cached_by_id. simpl. rewrite Hhit. simpl.
  by destruct (parse_group_schedule_soup _ _).
Qed.

(** When the fetch fails the empty soup is parsed, and the dictionary that
    only carries the group identifier is returned. *)
Lemma parse_group_lessons_data_fetch_failed env group_id st g e :
  by_id (group_cache (cache st)) !! group_id = Some g →
  get_response_from_url env (String.append MAIN_URL (link (fields g))) = Raised e →
  parse_group_lessons_data env group_id st = ([GroupOnly group_id], st).
Proof.
  intros Hhit Hfail. rewrite (parse_group_lessons_data_cached _ _ _ g Hhit).
  unfold get_soup_from_url. by rewrite Hfail.
Qed.

Lemma parse_group_lessons_data_no_rows env group_id st g content :
  by_id (group_cache (cache st)) !! group_id = Some g →
  get_response_from_url env (String.append MAIN_URL (link (fields g))) = Returned content →
  parse_group_schedule_soup group_id content = [] →
  parse_group_lessons_data env group_id st = ([GroupOnly group_id], st).
Proof.
  intros Hhit Hok Hnil. rewrite (parse_group_lessons_data_cached _ _ _ g Hhit).
  unfold get_soup_from_url. by rewrite Hok, Hnil.
Qed.

(** C7 at a failing input: group 7 is cached and the site cannot be
    reached, or answers 503, or answers a document without rows; the three
    results are the same one-element list. *)
Theorem fetch_failure_result_not_distinct :
  (parse_group_lessons_data (env_serving [] (Date 2024 9 1)) 7 (warm_state 5)).1
  = [GroupOnly 7]
  ∧ (parse_group_lessons_data (env_down (Date 2024 9 1)) 7 (warm_state 5)).1
    = [GroupOnly 7]
  ∧ (parse_group_lessons_data (env_unavailable (Date 2024 9 1)) 7 (warm_state 5)).1
    = [GroupOnly 7].
Proof. repeat split. Qed.
(** * The sweep phase *)

(** Unfolds the state updates and reads the fields of the result. *)
Ltac state_simpl :=
  cbn [cache_delete_lesson_key cache_lesson_key set_cache set_db
       set_lesson_marks set_lessons set_current_timestamp
       cache db lesson_marks lessons groups teachers classrooms subjects
       lesson_times current_timestamp
       sw_state lessons_to_deactivate_ids sw_affected_dates
       lessons_to_create sa_affected_dates fst snd].

(** The row is deactivated if the loop meets it in state [st]. *)
Definition stale_in (st : State) (p : Z * Lesson) : Prop :=
  mark_stale (lesson_marks (cache st) !! make_lesson_cache_key p.2)
    (current_timestamp st) = true.

#[global] Instance stale_in_dec st p : Decision (stale_in st p).
Proof. unfold stale_in. apply _. Defined.

Definition delete_marks (rows : list (Z * Lesson)) (st : State) : State :=
  foldl (λ s p, cache_delete_lesson_key (make_lesson_cache_key p.2) s) st rows.

Lemma stale_in_delete st p q :
  stale_in st p →
  stale_in (cache_delete_lesson_key (make_lesson_cache_key p.2) st) q ↔ stale_in st q.
Proof.
  unfold stale_in. state_simpl. intros Hp.
  destruct (decide (make_lesson_cache_key p.2 = make_lesson_cache_key q.2)) as [e|n].
  - rewrite e, lookup_delete_eq. rewrite e in Hp. by rewrite Hp.
  - by rewrite lookup_delete_ne.
Qed.

Lemma sweep_step_stale d st ids dates p :
  stale_in st p →
  sweep_step d (SweepAcc st ids dates) p =
  SweepAcc (cache_delete_lesson_key (make_lesson_cache_key p.2) st)
    ({[ p.1 ]} ∪ ids)
    (match lesson_date d p.2 with
     | Some ld => {[ ld ]} ∪ dates
     | None => dates
     end).
Proof. unfold stale_in, sweep_step. state_simpl. by intros ->. Qed.

Lemma sweep_step_fresh d acc p :
  ¬ stale_in (sw_state acc) p → sweep_step d acc p = acc.
Proof.
  unfold stale_in, sweep_step. intros Hs%not_true_is_false. by rewrite Hs.
Qed.

Lemma sweep_fold d rows : ∀ acc,
  foldl (sweep_step d) acc rows =
  SweepAcc (delete_marks (filter (stale_in (sw_state acc)) rows) (sw_state acc))
    (list_to_set (filter (stale_in (sw_state acc)) rows).*1
     ∪ lessons_to_deactivate_ids acc)
    (list_to_set (omap (λ p, lesson_date d p.2) (filter (stale_in (sw_state acc)) rows))
     ∪ sw_affected_dates acc).
Proof.
  induction rows as [|p rows IH]; intros [st ids dates].
  - cbn [foldl]. state_simpl. rewrite filter_nil. unfold delete_marks.
    cbn [foldl fmap list_fmap omap list_omap]. f_equal; set_solver.
  - cbn [foldl]. rewrite filter_cons. state_simpl.
    destruct (decide (stale_in st p)) as [Hs|Hs].
    + rewrite sweep_step_stale by done. rewrite IH. state_simpl.
      rewrite (list_filter_iff _ (stale_in st) rows)
        by (intros q; by apply stale_in_delete).
      unfold delete_marks. cbn [foldl fmap list_fmap omap list_omap].
      f_equal.
      * rewrite list_to_set_cons. set_solver.
      * destruct (lesson_date d p.2); [rewrite list_to_set_cons|]; set_solver.
    + rewrite sweep_step_fresh by done. rewrite IH. by state_simpl.
Qed.

Lemma db_delete_marks rows st : db (delete_marks rows st) = db st.
Proof.
  unfold delete_marks. revert st.
  induction rows as [|p rows IH]; intros st; [done|].
  cbn [foldl]. by rewrite IH.
Qed.

Lemma current_timestamp_delete_marks rows st :
  current_timestamp (delete_marks rows st) = current_timestamp st.
Proof.
  unfold delete_marks. revert st.
  induction rows as [|p rows IH]; intros st; [done|].
  cbn [foldl]. by rewrite IH.
Qed.

Lemma lesson_marks_delete_marks rows st k :
  lesson_marks (cache (delete_marks rows st)) !! k =
  if decide (k ∈ (λ p : Z * Lesson, make_lesson_cache_key p.2) <$> rows) then None
  else lesson_marks (cache st) !! k.
Proof.
  unfold delete_marks. revert st. induction rows as [|p rows IH]; intros st.
  - cbn [foldl fmap list_fmap]. case_decide as Hin; [|done].
    by apply not_elem_of_nil in Hin.
  - cbn [foldl]. rewrite IH. cbn [fmap list_fmap]. state_simpl.
    destruct (decide (k ∈ (λ p : Z * Lesson, make_lesson_cache_key p.2) <$> rows))
      as [Hin|Hin].
    + case_decide as Hc; [done|]. exfalso. apply Hc. by apply list_elem_of_further.
    + destruct (decide (k = make_lesson_cache_key p.2)) as [->|Hne].
      * rewrite lookup_delete_eq. case_decide as Hc; [done|].
        exfalso. apply Hc. apply list_elem_of_here.
      * rewrite lookup_delete_ne by done. case_decide as Hc; [|done].
        apply elem_of_cons in Hc as [?|?]; done.
Qed.

(** The lesson is met by the sweep of group [gid] and found stale. *)
Definition swept (env : Env) (gid : Z) (st : State) (lesson : Lesson) : Prop :=
  sweep_candidate (db st) (today env) gid lesson = true
  ∧ mark_stale (lesson_marks (cache st) !! make_lesson_cache_key lesson)
      (current_timestamp st) = true.

#[global] Instance swept_dec env gid st lesson : Decision (swept env gid st lesson).
Proof. unfold swept. apply and_dec; apply bool_eq_dec. Defined.

Lemma elem_of_stale_rows env gid st p :
  p ∈ filter (stale_in st) (sweep_queryset (db st) (today env) gid)
  ↔ lessons (db st) !! p.1 = Some p.2 ∧ swept env gid st p.2.
Proof.
  unfold sweep_queryset, swept, stale_in.
  rewrite !list_elem_of_filter. destruct p as [id lesson]. cbn [fst snd].
  rewrite elem_of_map_to_list. rewrite Is_true_true. tauto.
Qed.

Lemma sweep_loop_ids env gid st id :
  id ∈ lessons_to_deactivate_ids (sweep_loop env gid st)
  ↔ ∃ lesson, lessons (db st) !! id = Some lesson ∧ swept env gid st lesson.
Proof.
  unfold sweep_loop. rewrite sweep_fold. state_simpl.
  rewrite elem_of_union, elem_of_list_to_set, list_elem_of_fmap. split.
  - intros [([id' lesson] & -> & Hin)|Hin]; [|by apply not_elem_of_empty in Hin].
    apply elem_of_stale_rows in Hin. eauto.
  - intros (lesson & Hl & Hs). left. exists (id, lesson).
    split; [done|]. by apply elem_of_stale_rows.
Qed.

Lemma sweep_loop_dates env gid st d :
  d ∈ sw_affected_dates (sweep_loop env gid st)
  ↔ ∃ id lesson, lessons (db st) !! id = Some lesson ∧ swept env gid st lesson
                 ∧ lesson_date (db st) lesson = Some d.
Proof.
  unfold sweep_loop. rewrite sweep_fold. state_simpl.
  rewrite elem_of_union, elem_of_list_to_set, list_elem_of_omap. split.
  - intros [([id lesson] & Hin & Hd)|Hin]; [|by apply not_elem_of_empty in Hin].
    apply elem_of_stale_rows in Hin. destruct Hin. eauto 6.
  - intros (id & lesson & Hl & Hs & Hd). left. exists (id, lesson).
    split; [|done]. by apply elem_of_stale_rows.
Qed.

Lemma sweep_loop_state env gid st :
  sw_state (sweep_loop env gid st)
  = delete_marks (filter (stale_in st) (sweep_queryset (db st) (today env) gid)) st.
Proof. unfold sweep_loop. by rewrite sweep_fold. Qed.

Lemma lookup_update_inactive ids t id :
  update_inactive ids t !! id
  = (λ lesson, if decide (id ∈ ids) then deactivate lesson else lesson) <$> t !! id.
Proof.
  unfold update_inactive. rewrite map_lookup_imap.
  by destruct (t !! id).
Qed.

Lemma caches_delete_marks rows st :
  group_cache (cache (delete_marks rows st)) = group_cache (cache st)
  ∧ teacher_cache (cache (delete_marks rows st)) = teacher_cache (cache st)
  ∧ classroom_cache (cache (delete_marks rows st)) = classroom_cache (cache st)
  ∧ subject_cache (cache (delete_marks rows st)) = subject_cache (cache st)
  ∧ lesson_time_cache (cache (delete_marks rows st)) = lesson_time_cache (cache st).
Proof.
  unfold delete_marks. revert st.
  induction rows as [|p rows IH]; intros st; [done|].
  cbn [foldl]. destruct (IH (cache_delete_lesson_key (make_lesson_cache_key p.2) st))
    as (-> & -> & -> & -> & ->). done.
Qed.

(** The table of lessons after the sweep: the rows met and found stale
    are inactive, every other row is as it was. *)
Lemma deactivate_canceled_lessons_lessons env gid st id :
  lessons (db (deactivate_canceled_lessons env gid st).2) !! id
  = (λ lesson, if decide (swept env gid st lesson) then deactivate lesson
               else lesson) <$> lessons (db st) !! id.
Proof.
  unfold deactivate_canceled_lessons. state_simpl.
  rewrite sweep_loop_state, db_delete_marks, lookup_update_inactive.
  destruct (lessons (db st) !! id) as [lesson|] eqn:Hl; [|done].
  cbn [fmap option_fmap option_map]. f_equal.
  destruct (decide (swept env gid st lesson)) as [Hs|Hs].
  - rewrite decide_True; [done|]. apply sweep_loop_ids. eauto.
  - rewrite decide_False; [done|].
    intros (lesson' & Hl' & Hs')%sweep_loop_ids. congruence.
Qed.

Lemma deactivate_canceled_lessons_marks env gid st k :
  ((∃ id lesson, lessons (db st) !! id = Some lesson ∧ swept env gid st lesson
                 ∧ make_lesson_cache_key lesson = k) →
   lesson_marks (cache (deactivate_canceled_lessons env gid st).2) !! k = None)
  ∧ (¬ (∃ id lesson, lessons (db st) !! id = Some lesson ∧ swept env gid st lesson
                     ∧ make_lesson_cache_key lesson = k) →
     lesson_marks (cache (deactivate_canceled_lessons env gid st).2) !! k
     = lesson_marks (cache st) !! k).
Proof.
  unfold deactivate_canceled_lessons. state_simpl.
  rewrite sweep_loop_state, lesson_marks_delete_marks.
  split.
  - intros (id & lesson & Hl & Hs & <-). rewrite decide_True; [done|].
    apply list_elem_of_fmap. exists (id, lesson). split; [done|].
    by apply elem_of_stale_rows.
  - intros Hno. rewrite decide_False; [done|].
    intros ([id lesson] & -> & Hp)%list_elem_of_fmap.
    apply elem_of_stale_rows in Hp as [Hl Hs]. apply Hno. eauto.
Qed.

Lemma deactivate_canceled_lessons_frame env gid st :
  let st' := (deactivate_canceled_lessons env gid st).2 in
  groups (db st') = groups (db st)
  ∧ teachers (db st') = teachers (db st)
  ∧ classrooms (db st') = classrooms (db st)
  ∧ subjects (db st') = subjects (db st)
  ∧ lesson_times (db st') = lesson_times (db st)
  ∧ group_cache (cache st') = group_cache (cache st)
  ∧ teacher_cache (cache st') = teacher_cache (cache st)
  ∧ classroom_cache (cache st') = classroom_cache (cache st)
  ∧ subject_cache (cache st') = subject_cache (cache st)
  ∧ lesson_time_cache (cache st') = lesson_time_cache (cache st)
  ∧ current_timestamp st' = current_timestamp st.
Proof.
  unfold deactivate_canceled_lessons. state_simpl.
  rewrite sweep_loop_state, db_delete_marks, current_timestamp_delete_marks.
  destruct (caches_delete_marks
              (filter (stale_in st) (sweep_queryset (db st) (today env) gid)) st)
    as (-> & -> & -> & -> & ->).
  done.
Qed.


(** * Epoch zero *)

Definition sample_entry : lesson_dict :=
  LessonDict (Date 2024 9 2) "1" "Химия" "201" "Иванов И.И." "0" 7.

Definition sample_lesson : Lesson :=
  {| group_id := 7; lesson_time_id := 1; subject_id := 1; teacher_id := 1;
     classroom_id := 1; subgroup := "0"; is_active := true |}.

Definition sample_env : Env := env_serving [] (Date 2024 9 1).

(** The create phase run on the entry, from the state in which the lesson
    time of the entry is stored. *)
Definition after_first_save (epoch : Z) : State :=
  (save_lessons [sample_entry] (timetabled_state epoch)).2.

Definition after_second_save (epoch : Z) : State :=
  (save_lessons [sample_entry] (after_first_save epoch)).2.

(** When the lesson time of an entry is not stored yet, the create phase
    ends with the exception of [LessonTime.save()]; the teacher, the
    classroom and the subject have been stored by then, and no lesson
    is. *)
Example save_lessons_new_lesson_time :
  (save_lessons [sample_entry] (warm_state 5)).1 = Raised AttributeError
  ∧ teachers (db (save_lessons [sample_entry] (warm_state 5)).2)
    = {[ 1 := {| full_name := "Иванов И.И." |} ]}
  ∧ lesson_times (db (save_lessons [sample_entry] (warm_state 5)).2) = ∅
  ∧ lessons (db (save_lessons [sample_entry] (warm_state 5)).2) = ∅.
Proof. compute_done. Qed.

Example save_once_nonzero :
  (save_lessons [sample_entry] (timetabled_state 5)).1 = Returned {[ Date 2024 9 2 ]}
  ∧ map_to_list (lessons (db (after_first_save 5))) = [(1, sample_lesson)]
  ∧ lesson_marks (cache (after_first_save 5)) !! make_lesson_cache_key sample_lesson = Some 5.
Proof. compute_done. Qed.

Example save_twice_nonzero :
  (save_lessons [sample_entry] (after_first_save 5)).1 = Returned ∅
  ∧ map_to_list (lessons (db (after_second_save 5))) = [(1, sample_lesson)].
Proof. compute_done. Qed.

(** C1 at a failing input: the lesson time of the entry is stored, the
    group is cached, and the epoch is zero, which is the value the module
    gives [current_timestamp] at import.  Both runs of the create phase
    return; the mark written by the first run is the number zero, the
    second run reads it as no mark, and a second lesson with the same
    fingerprint is persisted. *)
Theorem save_lessons_twice_epoch_zero :
  current_timestamp (timetabled_state 0) = 0
  ∧ lesson_times (db (timetabled_state 0))
    = {[ 1 := {| lt_date := Date 2024 9 2; lesson_number := "1" |} ]}
  ∧ (save_lessons [sample_entry] (timetabled_state 0)).1 = Returned {[ Date 2024 9 2 ]}
  ∧ lessons (db (after_first_save 0)) = {[ 1 := sample_lesson ]}
  ∧ lesson_marks (cache (after_first_save 0)) !! make_lesson_cache_key sample_lesson
    = Some 0
  ∧ (save_lessons [sample_entry] (after_first_save 0)).1 = Returned {[ Date 2024 9 2 ]}
  ∧ lessons (db (after_second_save 0))
    = {[ 1 := sample_lesson; 2 := sample_lesson ]}.
Proof. compute_done. Qed.

(** C2 at a failing input: at epoch zero the create phase has just marked
    the active lesson with the current epoch, and the sweep makes it
    inactive, deletes its mark and reports its date; at epoch 5 the same
    lesson is left as it is. *)
Theorem sweep_epoch_zero_deactivates_marked :
  lessons (db (after_first_save 0)) !! 1
  = Some {| group_id := 7; lesson_time_id := 1; subject_id := 1; teacher_id := 1;
            classroom_id := 1; subgroup := "0"; is_active := true |}
  ∧ lesson_marks (cache (after_first_save 0)) !! make_lesson_cache_key sample_lesson
    = Some (current_timestamp (after_first_save 0))
  ∧ lessons (db (deactivate_canceled_lessons sample_env 7 (after_first_save 0)).2) !! 1
    = Some {| group_id := 7; lesson_time_id := 1; subject_id := 1; teacher_id := 1;
              classroom_id := 1; subgroup := "0"; is_active := false |}
  ∧ lesson_marks (cache (deactivate_canceled_lessons sample_env 7 (after_first_save 0)).2)
      !! make_lesson_cache_key sample_lesson = None
  ∧ (deactivate_canceled_lessons sample_env 7 (after_first_save 0)).1
    = {[ Date 2024 9 2 ]}
  ∧ lessons (db (deactivate_canceled_lessons sample_env 7 (after_first_save 5)).2) !! 1
    = Some {| group_id := 7; lesson_time_id := 1; subject_id := 1; teacher_id := 1;
              classroom_id := 1; subgroup := "0"; is_active := true |}
  ∧ (deactivate_canceled_lessons sample_env 7 (after_first_save 5)).1 = ∅.
Proof. compute_done. Qed.

(** The first of two cycles in a row for one group: the create phase and
    the sweep on the entries, from the state in which the lesson time of
    the sample entry is stored. *)
Definition first_cycle (epoch1 : Z) (lessons_data : list lesson_dict)
  : outcome (gset date) * State :=
  process_group_lessons_data sample_env lessons_data (timetabled_state epoch1).

(** The second cycle, on the same entries, with its own epoch. *)
Definition second_cycle (epoch1 epoch2 : Z) (lessons_data : list lesson_dict)
  : outcome (gset date) * State :=
  process_group_lessons_data sample_env lessons_data
    (set_current_timestamp epoch2 (first_cycle epoch1 lessons_data).2).

Definition two_cycles (epoch1 epoch2 : Z) (lessons_data : list lesson_dict) : State :=
  (second_cycle epoch1 epoch2 lessons_data).2.

Example two_cycles_nonzero :
  (first_cycle 5 [sample_entry]).1 = Returned {[ Date 2024 9 2 ]}
  ∧ (second_cycle 5 6 [sample_entry]).1 = Returned ∅
  ∧ lessons (db (two_cycles 5 6 [sample_entry])) = {[ 1 := sample_lesson ]}.
Proof. compute_done. Qed.

(** C3 at a failing input: epochs 0 and 1, the lesson time of the entry
    stored beforehand.  Both cycles return.  The sweep of the first cycle
    makes the lesson inactive that the create phase has just marked, and
    the second cycle creates a second lesson with the same fingerprint. *)
Theorem two_cycles_epoch_zero :
  (first_cycle 0 [sample_entry]).1 = Returned {[ Date 2024 9 2 ]}
  ∧ lessons (db (first_cycle 0 [sample_entry]).2)
    = {[ 1 := {| group_id := 7; lesson_time_id := 1; subject_id := 1;
                 teacher_id := 1; classroom_id := 1; subgroup := "0";
                 is_active := false |} ]}
  ∧ (second_cycle 0 1 [sample_entry]).1 = Returned {[ Date 2024 9 2 ]}
  ∧ lessons (db (two_cycles 0 1 [sample_entry]))
    = {[ 1 := {| group_id := 7; lesson_time_id := 1; subject_id := 1;
                 teacher_id := 1; classroom_id := 1; subgroup := "0";
                 is_active := false |};
         2 := {| group_id := 7; lesson_time_id := 1; subject_id := 1;
                 teacher_id := 1; classroom_id := 1; subgroup := "0";
                 is_active := true |} ]}.
Proof. compute_done. Qed.

(** * A fetch that fails, a document without rows *)

Lemma mark_stale_ne v timestamp : v ≠ Some timestamp → mark_stale v timestamp = true.
Proof.
  intros Hne. unfold mark_stale. rewrite (bool_decide_eq_false_2 _ Hne).
  by destruct (mark_truthy v).
Qed.

Lemma mark_stale_nonzero v timestamp :
  timestamp ≠ 0 → mark_stale v timestamp = true ↔ v ≠ Some timestamp.
Proof.
  intros Hnz. split; [|apply mark_stale_ne].
  unfold mark_stale, mark_truthy. intros Hs ->.
  rewrite (bool_decide_eq_false_2 _ Hnz) in Hs.
  by rewrite bool_decide_eq_true_2 in Hs.
Qed.

(** The sweep reads the environment only for today's date. *)
Lemma deactivate_canceled_lessons_today env1 env2 gid st :
  today env1 = today env2 →
  deactivate_canceled_lessons env1 gid st = deactivate_canceled_lessons env2 gid st.
Proof.
  intros Ht. unfold deactivate_canceled_lessons, sweep_loop. by rewrite Ht.
Qed.

(** On the dictionary that only carries the group the create phase does
    nothing, and the sweep runs. *)
Lemma process_group_only env gid st :
  process_group_lessons_data env [GroupOnly gid] st =
  let r := deactivate_canceled_lessons env gid
             (set_db (λ d, set_lessons (lessons d) d) st) in
  (Returned (∅ ∪ r.1), r.2).
Proof.
  unfold process_group_lessons_data, and_then.
  change (save_lessons [GroupOnly gid] st)
    with (Returned (∅ : gset date), set_db (λ d, set_lessons (lessons d) d) st).
  cbn [dict_group_id]. by destruct (deactivate_canceled_lessons _ _ _).
Qed.

(** C5.  With the group in the cache, a fetch that fails and a fetch that
    brings a document without retained rows give the same parse result,
    the dictionary that only carries the group identifier, and the same
    outcome of the whole job, which returns; in both the sweep runs, and
    every active lesson of the group dated today or later whose mark is
    not of the current epoch, which is every such lesson when no entry
    has been observed in this epoch, is stored as inactive afterwards, its
    other fields as they were, its mark is deleted and its date is among
    the dates the job reports. *)
Theorem unreachable_and_empty_swept_alike (env_f env_e : Env) (gid : Z)
    (g : instance Group) (st : State) :
  by_id (group_cache (cache st)) !! gid = Some g →
  (∃ e, get_response_from_url env_f (String.append MAIN_URL (link (fields g)))
        = Raised e) →
  (∃ content,
     get_response_from_url env_e (String.append MAIN_URL (link (fields g)))
     = Returned content
     ∧ parse_group_schedule_soup gid content = []) →
  today env_f = today env_e →
  (parse_group_lessons_data env_f gid st).1 = [GroupOnly gid]
  ∧ (parse_group_lessons_data env_e gid st).1 = [GroupOnly gid]
  ∧ group_job env_f gid st = group_job env_e gid st
  ∧ ∃ dates,
      (group_job env_f gid st).1 = Returned dates
      ∧ ∀ id lesson d,
          lessons (db st) !! id = Some lesson →
          group_id lesson = gid → is_active lesson = true →
          lesson_date (db st) lesson = Some d → date_leb (today env_f) d = true →
          lesson_marks (cache st) !! make_lesson_cache_key lesson
          ≠ Some (current_timestamp st) →
          lessons (db (group_job env_f gid st).2) !! id
          = Some {| group_id := group_id lesson;
                    lesson_time_id := lesson_time_id lesson;
                    subject_id := subject_id lesson;
                    teacher_id := teacher_id lesson;
                    classroom_id := classroom_id lesson;
                    subgroup := subgroup lesson;
                    is_active := false |}
          ∧ lesson_marks (cache (group_job env_f gid st).2)
              !! make_lesson_cache_key lesson = None
          ∧ d ∈ dates.
Proof.
  intros Hhit [e Hfail] (content & Hok & Hnil) Htoday.
  pose proof (parse_group_lessons_data_fetch_failed env_f gid st g e Hhit Hfail) as Hf.
  pose proof (parse_group_lessons_data_no_rows env_e gid st g content Hhit Hok Hnil)
    as He.
  split; [by rewrite Hf|]. split; [by rewrite He|].
  unfold group_job. rewrite Hf, He, !process_group_only. cbn zeta.
  rewrite (deactivate_canceled_lessons_today env_f env_e) by done.
  split; [done|].
  eexists. split; [reflexivity|].
  intros id lesson d Hl Hg Ha Hd Hle Hmark. cbn [snd].
  set (st0 := set_db (λ d0, set_lessons (lessons d0) d0) st).
  assert (swept env_e gid st0 lesson) as Hswept.
  { split.
    - unfold sweep_candidate, st0. state_simpl.
      unfold lesson_date in *. state_simpl. rewrite Hd.
      rewrite bool_decide_eq_true_2 by done. rewrite <- Htoday, Hle, Ha. done.
    - unfold st0. state_simpl. by apply mark_stale_ne. }
  assert (lessons (db st0) !! id = Some lesson) as Hl0 by done.
  split; [|split].
  - rewrite deactivate_canceled_lessons_lessons, Hl0.
    cbn [fmap option_fmap option_map]. by rewrite decide_True.
  - apply deactivate_canceled_lessons_marks. eauto.
  - apply elem_of_union. right.
    unfold deactivate_canceled_lessons. cbn [fst].
    apply sweep_loop_dates. exists id, lesson. done.
Qed.

(** The state one cycle after the lesson of [sample_entry] was created and
    marked with epoch 5: the epoch is now 6. *)
Definition next_cycle_state : State :=
  set_current_timestamp 6 (after_first_save 5).

Lemma unreachable_and_empty_swept_alike_witness :
  (parse_group_lessons_data (env_down (Date 2024 9 1)) 7 next_cycle_state).1
  = [GroupOnly 7]
  ∧ (parse_group_lessons_data sample_env 7 next_cycle_state).1 = [GroupOnly 7]
  ∧ group_job (env_down (Date 2024 9 1)) 7 next_cycle_state
    = group_job sample_env 7 next_cycle_state
  ∧ (group_job (env_down (Date 2024 9 1)) 7 next_cycle_state).1
    = Returned {[ Date 2024 9 2 ]}
  ∧ lessons (db (group_job (env_down (Date 2024 9 1)) 7 next_cycle_state).2) !! 1
    = Some {| group_id := 7; lesson_time_id := 1; subject_id := 1; teacher_id := 1;
              classroom_id := 1; subgroup := "0"; is_active := false |}
  ∧ lesson_marks (cache (group_job (env_down (Date 2024 9 1)) 7 next_cycle_state).2)
      !! make_lesson_cache_key sample_lesson = None.
Proof.
  destruct (unreachable_and_empty_swept_alike
              (env_down (Date 2024 9 1)) sample_env 7
              (Instance 7 sample_group) next_cycle_state)
    as (H1 & H2 & H3 & dates & H4 & H5).
  - reflexivity.
  - by exists RequestException.
  - by exists [].
  - reflexivity.
  - split; [exact H1|]. split; [exact H2|]. split; [exact H3|].
    split; [compute_done|].
    destruct (H5 1 sample_lesson (Date 2024 9 2)) as (H6 & H7 & _).
    + by vm_compute.
    + reflexivity.
    + reflexivity.
    + by vm_compute.
    + by vm_compute.
    + vm_compute. discriminate.
    + split; [exact H6|exact H7].
Defined.

(** * The cycle driver *)

(** The dispatched jobs run one after another on the state the driver
    left; a job that raises leaves the state it had reached. *)
Definition run_jobs (env : Env) (jobs : list Z) (st : State) : State :=
  foldl (λ st gid, (group_job env gid st).2) st jobs.

Definition run_cycle (env : Env) (st : State) : State :=
  let '(_, jobs, st) := update_schedule env st in run_jobs env jobs st.

(** The probe fails on a network failure, on a timeout and on a status
    from 400 to 599, and on nothing else. *)
Lemma get_response_from_url_raised env url :
  (∃ e, get_response_from_url env url = Raised e)
  ↔ web env url = ConnectionFailed ∨ web env url = TimedOut
    ∨ ∃ status_code content,
        web env url = Response status_code content ∧ 400 ≤ status_code < 600.
Proof.
  unfold get_response_from_url. destruct (web env url) as [| |c s].
  - split; eauto.
  - split; eauto.
  - case_bool_decide as Hc.
    + split; [|eauto]. intros _. right. right. eauto.
    + split; [by intros [? ?]|].
      intros [?|[?|(c' & s' & [= <- <-] & ?)]]; done.
Qed.

(** What the probe raises is a [RequestException]. *)
Lemma get_response_from_url_exn env url e :
  get_response_from_url env url = Raised e → e = RequestException.
Proof.
  unfold get_response_from_url. destruct (web env url) as [| |c s].
  - by intros [= <-].
  - by intros [= <-].
  - case_bool_decide; [by intros [= <-]|done].
Qed.

(** C8 as stated fails: the driver catches the exception of the probe and
    returns, so nothing is raised to its caller. *)
Lemma probe_failure_not_raised :
  get_response_from_url (env_unavailable (Date 2024 9 1)) MAIN_URL
  = Raised RequestException
  ∧ (update_schedule (env_unavailable (Date 2024 9 1)) (warm_state 5)).1.1
    = Returned ()
  ∧ ¬ (∀ env st e,
         get_response_from_url env MAIN_URL = Raised e →
         (update_schedule env st).1.1 = Raised e).
Proof.
  split; [reflexivity|]. split; [reflexivity|].
  intros H.
  specialize (H (env_unavailable (Date 2024 9 1)) (warm_state 5) RequestException
                eq_refl).
  discriminate H.
Qed.

(** C8, amended.  When the probe of the base address fails, the driver
    hands no group job to the task queue and returns normally, the
    exception being caught; it has set the epoch to the present time and
    changed nothing else, so that the cycle creates and deactivates no
    lesson. *)
Theorem update_schedule_probe_failure (env : Env) (st : State) (e : exn) :
  get_response_from_url env MAIN_URL = Raised e →
  update_schedule env st = (Returned (), [], set_current_timestamp (now env) st)
  ∧ db (run_cycle env st) = db st
  ∧ cache (run_cycle env st) = cache st
  ∧ current_timestamp (run_cycle env st) = now env.
Proof.
  intros Hfail. pose proof (get_response_from_url_exn _ _ _ Hfail) as ->.
  unfold run_cycle, update_schedule. rewrite Hfail. done.
Qed.

Lemma update_schedule_probe_failure_witness :
  update_schedule (env_down (Date 2024 9 1)) (after_first_save 5)
  = (Returned (), [], set_current_timestamp 1725148800 (after_first_save 5))
  ∧ db (run_cycle (env_down (Date 2024 9 1)) (after_first_save 5))
    = db (after_first_save 5)
  ∧ cache (run_cycle (env_down (Date 2024 9 1)) (after_first_save 5))
    = cache (after_first_save 5)
  ∧ current_timestamp (run_cycle (env_down (Date 2024 9 1)) (after_first_save 5))
    = 1725148800.
Proof.
  apply (update_schedule_probe_failure (env_down (Date 2024 9 1))
           (after_first_save 5) RequestException).
  reflexivity.
Defined.

(** When the probe succeeds one job per active group is dispatched. *)
Example update_schedule_dispatches :
  (update_schedule sample_env (warm_state 5)).1 = (Returned (), [7]).
Proof. compute_done. Qed.

(** * Primary keys and bulk creation *)

Lemma foldr_max_ge (l : list Z) (x : Z) : x ∈ l → x ≤ foldr Z.max 0 l.
Proof.
  induction l as [|y l IH]; [by intros ?%not_elem_of_nil|].
  intros [->|Hin]%elem_of_cons; cbn [foldr]; [lia|]. specialize (IH Hin). lia.
Qed.

Lemma fresh_pk_fresh {M} (t : table M) : t !! fresh_pk t = None.
Proof.
  destruct (t !! fresh_pk t) as [m|] eqn:Hl; [|done]. exfalso.
  assert (fresh_pk t ∈ (map_to_list t).*1) as Hin.
  { apply list_elem_of_fmap. exists (fresh_pk t, m). split; [done|].
    by apply elem_of_map_to_list. }
  apply foldr_max_ge in Hin. unfold fresh_pk in Hin at 1. lia.
Qed.

Lemma bulk_create_snoc {M} (objs : list M) (m : M) (t : table M) :
  bulk_create (objs ++ [m]) t
  = <[fresh_pk (bulk_create objs t) := m]> (bulk_create objs t).
Proof. unfold bulk_create. by rewrite foldl_app. Qed.

(** Bulk creation keeps every row that was there. *)
Lemma bulk_create_old {M} (objs : list M) (t : table M) id m :
  t !! id = Some m → bulk_create objs t !! id = Some m.
Proof.
  induction objs as [|m' objs IH] using rev_ind; [done|].
  intros Hl. rewrite bulk_create_snoc.
  rewrite lookup_insert_ne; [by apply IH|].
  intros Heq. specialize (IH Hl). rewrite <- Heq, fresh_pk_fresh in IH. done.
Qed.

(** Every row of the table after bulk creation was there before or is one
    of the objects, under a primary key that was free. *)
Lemma bulk_create_lookup {M} (objs : list M) (t : table M) id m :
  bulk_create objs t !! id = Some m →
  t !! id = Some m ∨ (t !! id = None ∧ m ∈ objs).
Proof.
  revert id m. induction objs as [|m' objs IH] using rev_ind; intros id m.
  - intros Hl. by left.
  - rewrite bulk_create_snoc.
    destruct (decide (fresh_pk (bulk_create objs t) = id)) as [<-|Hne].
    + rewrite lookup_insert_eq. intros [= <-]. right. split.
      * destruct (t !! fresh_pk (bulk_create objs t)) as [m0|] eqn:Ht; [|done].
        apply (bulk_create_old objs) in Ht. by rewrite fresh_pk_fresh in Ht.
      * apply elem_of_app. right. apply list_elem_of_here.
    + rewrite lookup_insert_ne by done. intros [?|[? ?]]%IH; [by left|].
      right. split; [done|]. apply elem_of_app. by left.
Qed.

(** Every object handed to bulk creation is in the table afterwards,
    under a primary key that was free. *)
Lemma bulk_create_new {M} (objs : list M) (t : table M) m :
  m ∈ objs → ∃ id, t !! id = None ∧ bulk_create objs t !! id = Some m.
Proof.
  induction objs as [|m' objs IH] using rev_ind; [by intros ?%not_elem_of_nil|].
  rewrite bulk_create_snoc. intros [Hin|Hin]%elem_of_app.
  2: apply list_elem_of_singleton in Hin as ->.
  - destruct (IH Hin) as (id & Hfree & Hl). exists id. split; [done|].
    rewrite lookup_insert_ne; [done|].
    intros Heq. rewrite <- Heq, fresh_pk_fresh in Hl. done.
  - exists (fresh_pk (bulk_create objs t)). split; [|by rewrite lookup_insert_eq].
    destruct (t !! fresh_pk (bulk_create objs t)) as [m0|] eqn:Ht; [|done].
    apply (bulk_create_old objs) in Ht. by rewrite fresh_pk_fresh in Ht.
Qed.

(** * Bulk resolvers of the managers *)

(** [dict(pairs)] for the pairs [(key p, p.1)] of a query result: a later
    pair replaces an earlier one with the same key. *)
Definition dict_of_rows {M K} `{Countable K} (key : M → K) (rows : list (Z * M))
  : gmap K Z :=
  foldl (λ m p, <[key p.2 := p.1]> m) ∅ rows.

Lemma dict_of_rows_snoc {M K} `{Countable K} (key : M → K) rows (p : Z * M) :
  dict_of_rows key (rows ++ [p]) = <[key p.2 := p.1]> (dict_of_rows key rows).
Proof. unfold dict_of_rows. by rewrite foldl_app. Qed.

Lemma dict_of_rows_lookup {M K} `{Countable K} (key : M → K) rows k id :
  dict_of_rows key rows !! k = Some id → ∃ m, (id, m) ∈ rows ∧ key m = k.
Proof.
  induction rows as [|p rows IH] using rev_ind.
  - unfold dict_of_rows. cbn [foldl]. by rewrite lookup_empty.
  - rewrite dict_of_rows_snoc.
    destruct (decide (key p.2 = k)) as [<-|Hne].
    + rewrite lookup_insert_eq. intros [= <-]. exists p.2. split; [|done].
      apply elem_of_app. right. destruct p. apply list_elem_of_here.
    + rewrite lookup_insert_ne by done. intros (m & Hin & Hk)%IH.
      exists m. split; [|done]. apply elem_of_app. by left.
Qed.

Lemma dict_of_rows_dom {M K} `{Countable K} (key : M → K) rows k :
  k ∈ dom (dict_of_rows key rows) ↔ ∃ p, p ∈ rows ∧ key p.2 = k.
Proof.
  induction rows as [|p rows IH] using rev_ind.
  - unfold dict_of_rows. cbn [foldl]. rewrite dom_empty_L. split.
    + by intros ?%not_elem_of_empty.
    + by intros (p & ?%not_elem_of_nil & _).
  - rewrite dict_of_rows_snoc, dom_insert_L, elem_of_union, elem_of_singleton, IH.
    split.
    + intros [->|(q & Hq & Hk)].
      * exists p. split; [|done]. apply elem_of_app. right. apply list_elem_of_here.
      * exists q. split; [|done]. apply elem_of_app. by left.
    + intros (q & [Hq|Hq]%elem_of_app & Hk).
      * right. eauto.
      * apply list_elem_of_singleton in Hq as ->. by left.
Qed.

Section SingleFieldManagerMixin.
Context {M K : Type} `{Countable K}.

(** The field named [field_name] of a row, and [self.model] applied to
    that one field. *)
Variable field : M → K.
Variable model : K → M.

(** [self.filter(field__in=values_set).values_list(field_name, 'id')]
    made into a dictionary. *)
Definition get_objects_map (values_set : gset K) (t : table M) : gmap K Z :=
  dict_of_rows field (filter (λ p, field p.2 ∈ values_set) (map_to_list t)).

Definition get_or_create_objects_map (unique_values_set : gset K) (t : table M)
  : gmap K Z * table M :=
  let objects_map := get_objects_map unique_values_set t in
  let missing_values := unique_values_set ∖ dom objects_map in
  if decide (missing_values = ∅) then (objects_map, t)
  else
    let t' := bulk_create (model <$> elements missing_values) t in
    (get_objects_map missing_values t' ∪ objects_map, t').

Lemma get_objects_map_lookup values_set t k id :
  get_objects_map values_set t !! k = Some id →
  k ∈ values_set ∧ ∃ m, t !! id = Some m ∧ field m = k.
Proof.
  unfold get_objects_map. intros (m & Hin & Hk)%dict_of_rows_lookup.
  apply list_elem_of_filter in Hin as [Hv Hin]. cbn [snd] in Hv.
  apply elem_of_map_to_list in Hin. split; [by rewrite <- Hk|]. eauto.
Qed.

Lemma get_objects_map_dom values_set t k :
  k ∈ dom (get_objects_map values_set t)
  ↔ k ∈ values_set ∧ ∃ id m, t !! id = Some m ∧ field m = k.
Proof.
  unfold get_objects_map. rewrite dict_of_rows_dom. split.
  - intros ([id m] & Hin & Hk). apply list_elem_of_filter in Hin as [Hv Hin].
    cbn [snd] in *. apply elem_of_map_to_list in Hin.
    split; [by rewrite <- Hk|]. eauto.
  - intros (Hv & id & m & Hl & Hk). exists (id, m). split; [|done].
    apply list_elem_of_filter. cbn [snd]. split; [by rewrite Hk|].
    by apply elem_of_map_to_list.
Qed.

Hypothesis field_model : ∀ k, field (model k) = k.

(** The resolver answers exactly the keys it was asked for; each maps to
    the primary key of a row of the final table that carries it; a key
    that some row carried beforehand maps to such a row, which is left
    untouched, and for a key that no row carried a row has been created
    under a primary key that was free; no row is changed or removed. *)
Lemma get_or_create_objects_map_spec (unique_values_set : gset K) (t : table M) :
  let r := get_or_create_objects_map unique_values_set t in
  dom r.1 = unique_values_set
  ∧ (∀ k id, r.1 !! k = Some id → ∃ m, r.2 !! id = Some m ∧ field m = k)
  ∧ (∀ k id, r.1 !! k = Some id →
       (∃ id' m, t !! id' = Some m ∧ field m = k) →
       ∃ m, t !! id = Some m ∧ field m = k)
  ∧ (∀ k id, r.1 !! k = Some id →
       ¬ (∃ id' m, t !! id' = Some m ∧ field m = k) → t !! id = None)
  ∧ (∀ id m, t !! id = Some m → r.2 !! id = Some m).
Proof.
  cbn zeta. unfold get_or_create_objects_map.
  set (objects_map := get_objects_map unique_values_set t).
  set (missing := unique_values_set ∖ dom objects_map).
  assert (∀ k, k ∈ dom objects_map → k ∈ unique_values_set) as Hsub.
  { intros k Hk. by apply get_objects_map_dom in Hk as [? _]. }
  destruct (decide (missing = ∅)) as [Hnone|Hsome]; cbn [fst snd].
  - split.
    { apply set_eq. intros k. split; [apply Hsub|].
      intros Hk. destruct (decide (k ∈ dom objects_map)); [done|].
      assert (k ∈ missing) as Hm by (by apply elem_of_difference).
      rewrite Hnone in Hm. by apply not_elem_of_empty in Hm. }
    split.
    { intros k id Hl. by apply get_objects_map_lookup in Hl as [_ ?]. }
    split.
    { intros k id Hl _. by apply get_objects_map_lookup in Hl as [_ ?]. }
    split; [|done].
    intros k id Hl Hno. exfalso. apply Hno.
    apply get_objects_map_lookup in Hl as [_ (m & ? & ?)]. eauto.
  - set (t' := bulk_create (model <$> elements missing) t).
    assert (∀ k, k ∈ missing → k ∈ dom (get_objects_map missing t')) as Hcreated.
    { intros k Hk. apply get_objects_map_dom. split; [done|].
      destruct (bulk_create_new (model <$> elements missing) t (model k))
        as (id & _ & Hl).
      - apply list_elem_of_fmap. exists k. split; [done|].
        by apply elem_of_elements.
      - exists id, (model k). eauto. }
    assert (∀ k id, get_objects_map missing t' !! k = Some id →
              k ∈ missing ∧ ∃ m, t' !! id = Some m ∧ field m = k ∧ t !! id = None)
      as Hnew.
    { intros k id Hl. apply get_objects_map_lookup in Hl as [Hk (m & Hl & Hf)].
      split; [done|]. exists m. split; [done|]. split; [done|].
      apply bulk_create_lookup in Hl as [Hold|[? _]]; [|done]. exfalso.
      apply elem_of_difference in Hk as [Hk Hnot]. apply Hnot.
      apply get_objects_map_dom. split; [done|]. eauto. }
    split.
    { apply set_eq. intros k. rewrite dom_union_L, elem_of_union. split.
      - intros [Hk|Hk]; [|by apply Hsub].
        apply elem_of_dom in Hk as [id Hl].
        apply Hnew in Hl as [Hk _]. by apply elem_of_difference in Hk as [? _].
      - intros Hk. destruct (decide (k ∈ dom objects_map)); [by right|].
        left. apply Hcreated. by apply elem_of_difference. }
    split.
    { intros k id [Hl|[_ Hl]]%lookup_union_Some_raw.
      - apply Hnew in Hl as (_ & m & ? & ? & _). eauto.
      - apply get_objects_map_lookup in Hl as [_ (m & Hl & ?)].
        exists m. split; [|done]. by apply bulk_create_old. }
    split.
    { intros k id [Hl|[_ Hl]]%lookup_union_Some_raw Hex.
      - exfalso. apply Hnew in Hl as (Hk & _).
        apply elem_of_difference in Hk as [Hk Hnot]. apply Hnot.
        apply get_objects_map_dom. split; [done|]. done.
      - by apply get_objects_map_lookup in Hl as [_ ?]. }
    split.
    { intros k id [Hl|[_ Hl]]%lookup_union_Some_raw Hno.
      - by apply Hnew in Hl as (_ & m & _ & _ & ?).
      - exfalso. apply Hno.
        apply get_objects_map_lookup in Hl as [_ (m & ? & ?)]. eauto. }
    intros id m Hl. by apply bulk_create_old.
Qed.

End SingleFieldManagerMixin.

(** The manager of teachers resolves full names. *)
Definition get_or_create_teacher_map (unique_teachers_set : gset string)
    (t : table Teacher) : gmap string Z * table Teacher :=
  get_or_create_objects_map full_name Build_Teacher unique_teachers_set t.

(** The manager of classrooms resolves titles. *)
Definition get_or_create_classroom_map (unique_classroom_set : gset string)
    (t : table Classroom) : gmap string Z * table Classroom :=
  get_or_create_objects_map classroom_title Build_Classroom unique_classroom_set t.

(** ** Lesson times *)

(** The natural key of a lesson time. *)
Definition lesson_time_key (lt : LessonTime) : date * string :=
  (lt_date lt, lesson_number lt).

(** A [Q] object built with [|=] from terms [Q(date=d, lesson_number=n)]:
    the list of its terms, [Q()] being the empty list. *)
Abbreviation Q := (list (date * string)).

(** [self.filter(filters)]: a [Q] without terms adds no condition, so
    every row is selected; otherwise the rows matching some term. *)
Definition filter_Q (filters : Q) (t : table LessonTime) : list (Z * LessonTime) :=
  match filters with
  | [] => map_to_list t
  | _ => filter (λ p, lesson_time_key p.2 ∈ filters) (map_to_list t)
  end.

Definition get_lesson_times_map (lesson_times_set : gset (date * string))
    (t : table LessonTime) : gmap (date * string) Z :=
  let filters := foldl (λ q k, q ++ [k]) [] (elements lesson_times_set) in
  dict_of_rows lesson_time_key (filter_Q filters t).

Definition get_or_create_lesson_times_map (unique_lesson_times : gset (date * string))
    (t : table LessonTime) : gmap (date * string) Z * table LessonTime :=
  let lesson_times_map := get_lesson_times_map unique_lesson_times t in
  let missing_lesson_times := unique_lesson_times ∖ dom lesson_times_map in
  if decide (missing_lesson_times = ∅) then (lesson_times_map, t)
  else
    let t' := bulk_create ((λ k, Build_LessonTime k.1 k.2)
                             <$> elements missing_lesson_times) t in
    (get_lesson_times_map missing_lesson_times t' ∪ lesson_times_map, t').

Lemma foldl_snoc_id {A} (l : list A) : ∀ acc, foldl (λ q k, q ++ [k]) acc l = acc ++ l.
Proof.
  induction l as [|x l IH]; intros acc; cbn [foldl]; [by rewrite app_nil_r|].
  rewrite IH. by rewrite <- app_assoc.
Qed.

(** For a set that is not empty the query is the one of the single-field
    resolver, on the pair of date and lesson number. *)
Lemma get_lesson_times_map_nonempty lesson_times_set t :
  lesson_times_set ≠ ∅ →
  get_lesson_times_map lesson_times_set t
  = get_objects_map lesson_time_key lesson_times_set t.
Proof.
  intros Hne. unfold get_lesson_times_map, get_objects_map.
  rewrite foldl_snoc_id. cbn [app]. unfold filter_Q.
  destruct (elements lesson_times_set) as [|k ks] eqn:He.
  - by apply elements_empty_inv, leibniz_equiv in He.
  - rewrite <- He. f_equal. apply list_filter_iff. intros p.
    by rewrite elem_of_elements.
Qed.

(** For the empty set the query selects every row of the table. *)
Lemma get_lesson_times_map_empty t :
  get_lesson_times_map ∅ t = dict_of_rows lesson_time_key (map_to_list t).
Proof. unfold get_lesson_times_map. by rewrite elements_empty. Qed.

(** C10 at a failing input: asked for no key at all, with one lesson time
    in storage, the resolver of lesson times answers a mapping that holds
    the key of that row. *)
Theorem get_or_create_lesson_times_map_empty_set :
  get_or_create_lesson_times_map ∅ sample_lesson_times
  = ({[ (Date 2024 9 2, "1") := 1 ]}, sample_lesson_times)
  ∧ dom (get_or_create_lesson_times_map ∅ sample_lesson_times).1 ≠ ∅
  ∧ (get_or_create_objects_map lesson_time_key (λ k, Build_LessonTime k.1 k.2)
       ∅ sample_lesson_times).1 = ∅.
Proof.
  split; [compute_done|]. split; [|compute_done].
  intros Hd. assert ((Date 2024 9 2, "1") ∈ (∅ : gset (date * string))) as Hin.
  { rewrite <- Hd. apply elem_of_dom. exists 1. compute_done. }
  by apply not_elem_of_empty in Hin.
Qed.

(** * Further properties of the bulk resolvers *)



Definition sample_teachers : table Teacher :=
  {[ 4 := {| full_name := "Иванов И.И." |} ]}.


Example get_or_create_teacher_map_sample :
  get_or_create_teacher_map {[ "Иванов И.И."; "Петров П.П." ]} sample_teachers
  = ({[ "Иванов И.И." := 4; "Петров П.П." := 5 ]},
     {[ 4 := {| full_name := "Иванов И.И." |};
        5 := {| full_name := "Петров П.П." |} ]}).
Proof. compute_done. Qed.



Example get_or_create_lesson_times_map_sample :
  get_or_create_lesson_times_map
    {[ (Date 2024 9 2, "1"); (Date 2024 9 2, "2") ]} sample_lesson_times
  = ({[ (Date 2024 9 2, "1") := 1; (Date 2024 9 2, "2") := 2 ]},
     {[ 1 := {| lt_date := Date 2024 9 2; lesson_number := "1" |};
        2 := {| lt_date := Date 2024 9 2; lesson_number := "2" |} ]}).
Proof. compute_done. Qed.

(** * Further properties of the sweep *)

Lemma sweep_candidate_true d today_ gid lesson :
  sweep_candidate d today_ gid lesson = true
  ↔ group_id lesson = gid
    ∧ (∃ ld, lesson_date d lesson = Some ld ∧ date_leb today_ ld = true)
    ∧ is_active lesson = true.
Proof.
  unfold sweep_candidate. rewrite !andb_true_iff, bool_decide_eq_true.
  destruct (lesson_date d lesson) as [ld|].
  - split.
    + intros [[? ?] ?]. eauto.
    + intros (? & (ld' & [= <-] & ?) & ?). done.
  - split; [by intros [[? ?] ?]|]. by intros (? & (ld' & ? & ?) & ?).
Qed.

(** The lesson is one that the sweep of group [gid] is meant to make
    inactive: an active lesson of the group, dated today or later, whose
    mark is absent or of another epoch. *)
Definition unobserved (env : Env) (gid : Z) (st : State) (lesson : Lesson) : Prop :=
  group_id lesson = gid ∧ is_active lesson = true
  ∧ (∃ d, lesson_date (db st) lesson = Some d ∧ date_leb (today env) d = true)
  ∧ lesson_marks (cache st) !! make_lesson_cache_key lesson
    ≠ Some (current_timestamp st).

Lemma swept_unobserved env gid st lesson :
  current_timestamp st ≠ 0 → swept env gid st lesson ↔ unobserved env gid st lesson.
Proof.
  intros Hnz. unfold swept, unobserved.
  rewrite sweep_candidate_true, (mark_stale_nonzero _ _ Hnz). tauto.
Qed.





(** * Further properties of the driver and of the fetch *)

Lemma elem_of_active_group_ids d gid :
  gid ∈ active_group_ids d ↔ ∃ g, groups d !! gid = Some g ∧ group_is_active g = true.
Proof.
  unfold active_group_ids. rewrite list_elem_of_fmap. split.
  - intros ([id g] & -> & [Ha Hin%elem_of_map_to_list]%list_elem_of_filter).
    cbn [fst snd] in *. exists g. split; [done|]. by apply Is_true_true.
  - intros (g & Hl & Ha). exists (gid, g). split; [done|].
    apply list_elem_of_filter. cbn [snd]. split; [by apply Is_true_true|].
    by apply elem_of_map_to_list.
Qed.



Lemma parse_group_schedule_soup_group_id group_id s data :
  data ∈ parse_group_schedule_soup group_id s → dict_group_id data = group_id.
Proof.
  intros (i & r & sec & d & _ & _ & _ & _ & Hmk)%parse_entry_origin.
  unfold make_lesson_dict in Hmk.
  destruct (cells r) as [|c0 [|c1 [|c2 [|c3 [|c4 [|? ?]]]]]]; try done.
  by injection Hmk as <-.
Qed.



(** * Further properties of bulk creation *)

Lemma bulk_create_size {M} (objs : list M) (t : table M) :
  size (bulk_create objs t) = (size t + length objs)%nat.
Proof.
  induction objs as [|m objs IH] using rev_ind; [cbn; lia|].
  rewrite bulk_create_snoc, map_size_insert_None by apply fresh_pk_fresh.
  rewrite IH, length_app. cbn [length]. lia.
Qed.


(** * Further properties of the create phase *)

Lemma get_or_create_cached_returned {M} `{Model M} (defaults : M) (st st' : State)
    (obj : instance M) :
  get_or_create_cached defaults st = (Returned obj, st') →
  by_params (cached (cache st')) !! defaults = Some obj.
Proof.
  unfold get_or_create_cached.
  destruct (by_params (cached (cache st)) !! defaults) as [obj0|] eqn:Hhit.
  - by intros [= <- <-].
  - destruct (get_or_create defaults (objects (db st))) as [[obj1 t]|e]; [|done].
    intros [= <- <-].
    cbn [set_cache set_db cache]. rewrite cached_set_cached. cbn [by_params].
    by rewrite lookup_insert_eq.
Qed.



(** The lookups of the create phase for teachers, classrooms and subjects
    leave the lessons, the lesson times, their cache, the cached groups,
    the marks and the epoch as they were. *)
Definition create_frame (st st' : State) : Prop :=
  lessons (db st') = lessons (db st)
  ∧ lesson_times (db st') = lesson_times (db st)
  ∧ groups (db st') = groups (db st)
  ∧ lesson_time_cache (cache st') = lesson_time_cache (cache st)
  ∧ group_cache (cache st') = group_cache (cache st)
  ∧ lesson_marks (cache st') = lesson_marks (cache st)
  ∧ current_timestamp st' = current_timestamp st.

Lemma create_frame_refl st : create_frame st st.
Proof. by repeat split. Qed.

Lemma create_frame_trans st1 st2 st3 :
  create_frame st1 st2 → create_frame st2 st3 → create_frame st1 st3.
Proof.
  unfold create_frame. intros (?&?&?&?&?&?&?) (?&?&?&?&?&?&?).
  repeat split; congruence.
Qed.

Lemma get_or_create_cached_teacher_frame defaults st :
  create_frame st (get_or_create_cached (M := Teacher) defaults st).2.
Proof.
  unfold get_or_create_cached.
  destruct (by_params _ !! defaults); [apply create_frame_refl|].
  destruct (get_or_create _ _) as [[obj t]|e]; [|apply create_frame_refl].
  by repeat split.
Qed.

Lemma get_or_create_cached_classroom_frame defaults st :
  create_frame st (get_or_create_cached (M := Classroom) defaults st).2.
Proof.
  unfold get_or_create_cached.
  destruct (by_params _ !! defaults); [apply create_frame_refl|].
  destruct (get_or_create _ _) as [[obj t]|e]; [|apply create_frame_refl].
  by repeat split.
Qed.

Lemma get_or_create_cached_subject_frame defaults st :
  create_frame st (get_or_create_cached (M := Subject) defaults st).2.
Proof.
  unfold get_or_create_cached.
  destruct (by_params _ !! defaults); [apply create_frame_refl|].
  destruct (get_or_create _ _) as [[obj t]|e]; [|apply create_frame_refl].
  by repeat split.
Qed.

Lemma objects_find_None {M} `{EqDecision M} (m : M) (t : table M) :
  (∀ id, t !! id ≠ Some m) → objects_find m t = None.
Proof.
  intros Hno. unfold objects_find.
  destruct (find _ _) as [[id m']|] eqn:Hf; [|done]. exfalso.
  apply find_some in Hf as [Hin Heq]. cbn [snd] in Heq.
  apply bool_decide_eq_true in Heq as ->.
  apply list_elem_of_In, elem_of_map_to_list in Hin. by apply (Hno id).
Qed.

(** What the three lookups before the group lookup leave to the rest of
    one iteration. *)
Lemma save_lessons_step_unfold acc d number subject_t classroom_t teacher_n
    subgroup_ gid st :
  (∃ e st', save_lessons_step acc
              (LessonDict d number subject_t classroom_t teacher_n subgroup_ gid) st
            = (Raised e, st')
            ∧ (e = IntegrityError) ∧ create_frame st st')
  ∨ (∃ (teacher : instance Teacher) (classroom : instance Classroom)
       (subject : instance Subject) st',
       create_frame st st'
       ∧ save_lessons_step acc
           (LessonDict d number subject_t classroom_t teacher_n subgroup_ gid) st
         = (let '(group_, st) := get_cached_by_id (M := Group) gid st' in
            match group_ with
            | None => (Returned acc, st)
            | Some group_ =>
                and_then (get_or_create_cached {| lt_date := d; lesson_number := number |})
                  (λ lesson_time st,
                   let lesson :=
                     {| group_id := pk group_; lesson_time_id := pk lesson_time;
                        subject_id := pk subject; teacher_id := pk teacher;
                        classroom_id := pk classroom; subgroup := subgroup_;
                        is_active := true |} in
                   let key := make_lesson_cache_key lesson in
                   let st' := cache_lesson_key key (current_timestamp st) st in
                   if mark_truthy (lesson_marks (cache st) !! key)
                   then (Returned acc, st')
                   else (Returned
                           (SaveAcc (lessons_to_create acc ++ [lesson])
                              ({[ lt_date (fields lesson_time) ]} ∪ sa_affected_dates acc)),
                         st')) st
            end)).
Proof.
  unfold save_lessons_step, and_then.
  pose proof (get_or_create_cached_teacher_frame {| full_name := teacher_n |} st) as F1.
  destruct (get_or_create_cached {| full_name := teacher_n |} st) as [[teacher|e1] st1]
    eqn:H1; cbn [snd] in F1.
  2: { left. exists e1, st1. split; [done|]. split; [|done].
       revert H1. unfold get_or_create_cached.
       destruct (by_params _ !! _); [done|].
       cbn [get_or_create Teacher_model]. unfold teacher_get_or_create.
       destruct (objects_find _ _) as [?|]; [done|].
       destruct (objects_find _ _) as [?|]; [|done].
       by intros [= <- _]. }
  pose proof (get_or_create_cached_classroom_frame {| classroom_title := classroom_t |} st1)
    as F2.
  destruct (get_or_create_cached {| classroom_title := classroom_t |} st1)
    as [[classroom|e2] st2] eqn:H2; cbn [snd] in F2.
  2: { exfalso. revert H2. unfold get_or_create_cached.
       destruct (by_params _ !! _); [done|].
       cbn [get_or_create Classroom_model]. unfold objects_get_or_create.
       by destruct (objects_find _ _). }
  pose proof (get_or_create_cached_subject_frame {| subject_title := subject_t |} st2)
    as F3.
  destruct (get_or_create_cached {| subject_title := subject_t |} st2)
    as [[subject|e3] st3] eqn:H3; cbn [snd] in F3.
  2: { exfalso. revert H3. unfold get_or_create_cached.
       destruct (by_params _ !! _); [done|].
       cbn [get_or_create Subject_model]. unfold objects_get_or_create.
       by destruct (objects_find _ _). }
  right. exists teacher, classroom, subject, st3. split; [|done].
  eauto using create_frame_trans.
Qed.

Lemma get_or_create_cached_frame {M} `{Model M} (defaults : M) (st : State) :
  lessons (db (get_or_create_cached defaults st).2) = lessons (db st)
  ∧ lesson_marks (cache (get_or_create_cached defaults st).2) = lesson_marks (cache st)
  ∧ current_timestamp (get_or_create_cached defaults st).2 = current_timestamp st.
Proof.
  unfold get_or_create_cached.
  destruct (by_params _ !! defaults); [done|].
  destruct (get_or_create _ _) as [[obj t]|e]; [|done].
  cbn [snd set_cache set_db db cache current_timestamp].
  by rewrite lessons_set_objects, lesson_marks_set_cached.
Qed.

Lemma get_cached_by_id_frame {M} `{Model M} (obj_id : Z) (st : State) :
  db (get_cached_by_id obj_id st).2 = db st
  ∧ lesson_marks (cache (get_cached_by_id obj_id st).2) = lesson_marks (cache st)
  ∧ current_timestamp (get_cached_by_id obj_id st).2 = current_timestamp st.
Proof.
  unfold get_cached_by_id.
  destruct (by_id _ !! obj_id); [done|].
  destruct (objects_get _ _); [|done].
  cbn [snd set_cache db cache current_timestamp].
  by rewrite lesson_marks_set_cached.
Qed.

(** One iteration never touches the table of lessons nor the epoch,
    whether it returns or raises. *)
Lemma save_lessons_step_lessons acc data st :
  lessons (db (save_lessons_step acc data st).2) = lessons (db st)
  ∧ current_timestamp (save_lessons_step acc data st).2 = current_timestamp st.
Proof.
  destruct data as [d number subject_t classroom_t teacher_n subgroup_ gid|gid];
    [|done].
  destruct (save_lessons_step_unfold acc d number subject_t classroom_t teacher_n
              subgroup_ gid st)
    as [(e & st' & -> & _ & F)|(teacher & classroom & subject & st' & F & ->)].
  - cbn [snd]. destruct F as (? & _ & _ & _ & _ & _ & ?). done.
  - destruct F as (Fl & _ & _ & _ & _ & _ & Ft).
    destruct (get_cached_by_id_frame (M := Group) gid st') as (Gd & _ & Gt).
    destruct (get_cached_by_id (M := Group) gid st') as [[group_|] st1];
      cbn [snd] in *; [|by rewrite Gd, Gt].
    unfold and_then.
    destruct (get_or_create_cached_frame {| lt_date := d; lesson_number := number |} st1)
      as (Ll & _ & Lt).
    destruct (get_or_create_cached {| lt_date := d; lesson_number := number |} st1)
      as [[lesson_time|e] st2]; cbn [snd] in *.
    + destruct (mark_truthy _); cbn [snd cache_lesson_key set_cache db current_timestamp];
        by rewrite Ll, Lt, Gd, Gt.
    + by rewrite Ll, Lt, Gd, Gt.
Qed.

Lemma save_lessons_loop_lessons lessons_data : ∀ acc st,
  lessons (db (save_lessons_loop lessons_data acc st).2) = lessons (db st)
  ∧ current_timestamp (save_lessons_loop lessons_data acc st).2 = current_timestamp st.
Proof.
  induction lessons_data as [|data rest IH]; intros acc st; [done|].
  cbn [save_lessons_loop]. unfold and_then.
  destruct (save_lessons_step_lessons acc data st) as [Hl Ht].
  destruct (save_lessons_step acc data st) as [[acc'|e] st']; cbn [snd] in *.
  - destruct (IH acc' st') as [Hl' Ht']. by rewrite Hl', Ht', Hl, Ht.
  - done.
Qed.

(** A lesson queued by an iteration is active. *)
Lemma save_lessons_step_queue acc data st acc' st' :
  save_lessons_step acc data st = (Returned acc', st') →
  lessons_to_create acc' = lessons_to_create acc
  ∨ ∃ lesson, lessons_to_create acc' = lessons_to_create acc ++ [lesson]
              ∧ is_active lesson = true.
Proof.
  destruct data as [d number subject_t classroom_t teacher_n subgroup_ gid|gid];
    [|intros [= <- _]; by left].
  destruct (save_lessons_step_unfold acc d number subject_t classroom_t teacher_n
              subgroup_ gid st)
    as [(e & st0 & -> & _ & F)|(teacher & classroom & subject & st0 & F & ->)];
    [done|].
  unfold get_cached_by_id.
  destruct (by_id _ !! gid) as [group_|] eqn:Hg.
  2: { destruct (objects_get _ _); intros [= <- _]; by left. }
  unfold and_then.
  destruct (get_or_create_cached {| lt_date := d; lesson_number := number |} st0)
    as [[lesson_time|e] st2]; [|done].
  destruct (mark_truthy _); intros [= <- _]; [by left|].
  right. eexists. split; [reflexivity|]. done.
Qed.

Lemma save_lessons_loop_queue lessons_data : ∀ acc st acc' st',
  save_lessons_loop lessons_data acc st = (Returned acc', st') →
  Forall (λ lesson, is_active lesson = true) (lessons_to_create acc) →
  Forall (λ lesson, is_active lesson = true) (lessons_to_create acc').
Proof.
  induction lessons_data as [|data rest IH]; intros acc st acc' st'.
  - by intros [= <- _].
  - cbn [save_lessons_loop]. unfold and_then.
    destruct (save_lessons_step acc data st) as [[acc1|e] st1] eqn:Hstep; [|done].
    intros Hloop Hall. apply (IH _ _ _ _ Hloop).
    destruct (save_lessons_step_queue _ _ _ _ _ Hstep) as [->|(lesson & -> & Ha)];
      [done|].
    apply Forall_app. split; [done|]. by apply Forall_singleton.
Qed.


Lemma save_lessons_cons_raised data rest st e st' :
  save_lessons_step (SaveAcc [] ∅) data st = (Raised e, st') →
  save_lessons (data :: rest) st = (Raised e, st').
Proof.
  intros Hstep. unfold save_lessons. cbn [save_lessons_loop]. unfold and_then.
  by rewrite Hstep.
Qed.




